(** * OpenRouter MCP server: cache, resilient fetch and tool dispatch

    A shallow embedding of the TypeScript server: the revision with the
    asynchronous file cache, the retry loop and [validateInput].  The
    single-attempt [fetchWithRetry] of the previous revision is kept in
    [Module SingleAttempt] for comparison.

    Effects (file system, clock, network, console, timers) are threaded
    through an explicit [World]; a thrown JavaScript exception is the
    [Throw] completion of the [Js] monad.  The file has three parts: the
    embedding, the vocabulary and sample worlds used to state properties,
    and the properties themselves. *)

From Stdlib Require Import ZArith String List Ascii Bool Lia DecimalString.
Import ListNotations.
Open Scope string_scope.
Open Scope Z_scope.

Set Implicit Arguments.

(** ** Strings *)

(** JavaScript strings are modelled by [string]; [String.length] stands for
    the [.length] property (one character per code unit). *)

Definition lower_ascii (c : ascii) : ascii :=
  let n := nat_of_ascii c in
  if ((65 <=? n) && (n <=? 90))%nat then ascii_of_nat (n + 32) else c.

(** [String.prototype.toLowerCase], on the ASCII letters. *)
Fixpoint toLowerCase (s : string) : string :=
  match s with
  | EmptyString => EmptyString
  | String c s' => String (lower_ascii c) (toLowerCase s')
  end.

Fixpoint startsWith (s p : string) {struct p} : bool :=
  match p with
  | EmptyString => true
  | String c p' =>
      match s with
      | EmptyString => false
      | String d s' => Ascii.eqb c d && startsWith s' p'
      end
  end.

(** [String.prototype.includes]. *)
Fixpoint includes (s t : string) : bool :=
  startsWith s t ||
  match s with
  | EmptyString => false
  | String _ s' => includes s' t
  end.

(** [String.prototype.endsWith]. *)
Fixpoint endsWith (s suffix : string) : bool :=
  String.eqb s suffix ||
  match s with
  | EmptyString => false
  | String _ s' => endsWith s' suffix
  end.

(** Template-literal interpolation of an integer. *)
Definition show (n : Z) : string := NilZero.string_of_int (Z.to_int n).

(** [Array.prototype.join]. *)
Definition join (sep : string) (parts : list string) : string :=
  String.concat sep parts.

Definition newline : string := String (ascii_of_nat 10) EmptyString.

(** ** JavaScript values and errors *)

(** The values a tool-call argument can hold.  Numbers are the integral
    ones; an object or array is kept only through what [String(v)] prints
    for it. *)
Inductive JsVal :=
| JUndefined
| JNull
| JBool (b : bool)
| JNum (n : Z)
| JStr (s : string)
| JObject (printed : string).

(** Truthiness, as tested by [!v], [v || d] and [if (v)]. *)
Definition truthy (v : JsVal) : bool :=
  match v with
  | JUndefined | JNull => false
  | JBool b => b
  | JNum n => negb (n =? 0)
  | JStr s => negb (String.eqb s "")
  | JObject _ => true
  end.

Definition typeof (v : JsVal) : string :=
  match v with
  | JUndefined => "undefined"
  | JNull => "object"
  | JBool _ => "boolean"
  | JNum _ => "number"
  | JStr _ => "string"
  | JObject _ => "object"
  end.

(** [String(v)]. *)
Definition JsString (v : JsVal) : string :=
  match v with
  | JUndefined => "undefined"
  | JNull => "null"
  | JBool true => "true"
  | JBool false => "false"
  | JNum n => show n
  | JStr s => s
  | JObject printed => printed
  end.

(** [v.length > bound]; only strings reach this test in the source, and a
    value without a [length] compares as [undefined > bound], false. *)
Definition length_exceeds (v : JsVal) (bound : Z) : bool :=
  match v with
  | JStr s => bound <? Z.of_nat (String.length s)
  | _ => false
  end.

Record JsError := mkError {
  err_name : string;
  err_message : string;
  err_code : option string
}.

Definition Error (message : string) : JsError := mkError "Error" message None.
Definition TypeError (message : string) : JsError := mkError "TypeError" message None.
Definition SyntaxError (message : string) : JsError := mkError "SyntaxError" message None.
Definition ReferenceError (message : string) : JsError :=
  mkError "ReferenceError" message None.
(** An error raised by [fs/promises], carrying its [code]. *)
Definition SystemError (code : string) : JsError :=
  mkError "Error" (code ++ ": .models-cache.json") (Some code).
(** What [fetch] rejects with when the [AbortController] fires. *)
Definition AbortError : JsError :=
  mkError "AbortError" "This operation was aborted" None.

(** ** Data model *)

Record OpenRouterModel := {
  id : string;
  name : string
}.

Record ErrorBody := {
  message : option string;
  code : option Z
}.

Record Message := { content : option string }.
Record Choice := { choice_message : option Message }.

Record OpenRouterResponse := {
  data : option (list OpenRouterModel);
  choices : option (list Choice);
  error : option ErrorBody
}.

(** The text of the cache file, up to what [JSON.parse] makes of it: either
    the serialisation of a model list, which is all [setCachedModels] ever
    writes, or a text that does not parse. *)
Inductive FileText :=
| Malformed (raw : string)
| Serialized (models : list OpenRouterModel).

Inductive FsOutcome (A : Type) :=
| FsOk (a : A)
| FsFail (code : string).
Arguments FsFail {A} code.

Record CacheFile := {
  mtimeMs : Z;
  contents : FsOutcome FileText     (* what [readFile] yields *)
}.

(** The one path the server touches.  [FsFail "ENOENT"] is the absent
    file; another code is a file that [stat] cannot reach. *)
Record Disk := {
  cache_file : FsOutcome CacheFile;
  unlink_fault : option string;
  write_fault : option string
}.

Definition NoFile : FsOutcome CacheFile := FsFail "ENOENT".

(** ** HTTP *)

Record Response := {
  status : Z;
  statusText : string;
  headers_get : string -> option string;
  body : option OpenRouterResponse    (* [None]: [json()] rejects *)
}.

Definition ok (r : Response) : bool := (200 <=? status r) && (status r <=? 299).

Record ChatBody := {
  model : string;
  messages : list (string * string)   (* role, content *)
}.

Record RequestInit := {
  method : option string;
  headers : list (string * string);
  init_body : option ChatBody
}.

Definition no_options : RequestInit :=
  {| method := None; headers := []; init_body := None |}.

Record Request := {
  url : string;
  init : RequestInit
}.

Inductive FetchOutcome :=
| Responds (r : Response)
| Rejects (e : JsError).

(** ** The world *)

Inductive Event :=
| EvStat
| EvReadFile
| EvUnlink
| EvWriteFile (text : FileText)
| EvFetch (req : Request)
| EvSleep (ms : Z)
| EvLog (line : string) (e : JsError).

Record World := {
  disk : Disk;
  clock : Z;                          (* [Date.now()], milliseconds *)
  network : nat -> FetchOutcome;      (* outcome of the n-th request *)
  sent : nat;                         (* requests issued so far *)
  trace : list Event                  (* oldest first *)
}.

Definition emit (ev : Event) (w : World) : World :=
  {| disk := disk w; clock := clock w; network := network w;
     sent := sent w; trace := trace w ++ [ev] |}.

Definition with_cache_file (f : FsOutcome CacheFile) (w : World) : World :=
  {| disk := {| cache_file := f;
                unlink_fault := unlink_fault (disk w);
                write_fault := write_fault (disk w) |};
     clock := clock w; network := network w;
     sent := sent w; trace := trace w |}.

Definition advance (ms : Z) (w : World) : World :=
  {| disk := disk w; clock := clock w + ms; network := network w;
     sent := sent w; trace := trace w |}.

Definition count_request (w : World) : World :=
  {| disk := disk w; clock := clock w; network := network w;
     sent := S (sent w); trace := trace w |}.

(** ** The effect monad *)

Inductive Completion (A : Type) :=
| Normal (a : A)
| Throw (e : JsError).
Arguments Throw {A} e.

Definition Js (A : Type) : Type := World -> Completion A * World.

Definition ret {A} (a : A) : Js A := fun w => (Normal a, w).

Definition throw {A} (e : JsError) : Js A := fun w => (Throw e, w).

Definition bind {A B} (m : Js A) (k : A -> Js B) : Js B :=
  fun w =>
    match m w with
    | (Normal a, w') => k a w'
    | (Throw e, w') => (Throw e, w')
    end.

(** [try { m } catch (e) { handler e }]. *)
Definition try_catch {A} (m : Js A) (handler : JsError -> Js A) : Js A :=
  fun w =>
    match m w with
    | (Normal a, w') => (Normal a, w')
    | (Throw e, w') => handler e w'
    end.

Definition effect (ev : Event) : Js unit := fun w => (Normal tt, emit ev w).

Declare Scope js_scope.
Delimit Scope js_scope with js.
Notation "x <- m ;; k" := (bind m (fun x => k))
  (at level 61, m at next level, right associativity) : js_scope.
Notation "m ;; k" := (bind m (fun _ => k))
  (at level 61, right associativity) : js_scope.
Open Scope js_scope.

(** ** File system, clock, console and timers *)

Definition CACHE_TTL : Z := 5 * 60 * 1000.

Definition MAX_PROMPT_LENGTH : Z := 15000.

Definition fs_stat : Js Z :=
  fun w =>
    let w1 := emit EvStat w in
    match cache_file (disk w) with
    | FsOk f => (Normal (mtimeMs f), w1)
    | FsFail c => (Throw (SystemError c), w1)
    end.

Definition fs_readFile : Js FileText :=
  fun w =>
    let w1 := emit EvReadFile w in
    match cache_file (disk w) with
    | FsOk f =>
        match contents f with
        | FsOk text => (Normal text, w1)
        | FsFail c => (Throw (SystemError c), w1)
        end
    | FsFail c => (Throw (SystemError c), w1)
    end.

Definition fs_unlink : Js unit :=
  fun w =>
    let w1 := emit EvUnlink w in
    match unlink_fault (disk w) with
    | Some c => (Throw (SystemError c), w1)
    | None =>
        match cache_file (disk w) with
        | FsOk _ => (Normal tt, with_cache_file NoFile w1)
        | FsFail c => (Throw (SystemError c), w1)
        end
    end.

Definition fs_writeFile (text : FileText) : Js unit :=
  fun w =>
    let w1 := emit (EvWriteFile text) w in
    match write_fault (disk w) with
    | Some c => (Throw (SystemError c), w1)
    | None =>
        (Normal tt,
         with_cache_file (FsOk {| mtimeMs := clock w; contents := FsOk text |}) w1)
    end.

Definition Date_now : Js Z := fun w => (Normal (clock w), w).

Definition console_error (line : string) (e : JsError) : Js unit :=
  effect (EvLog line e).

(** [await new Promise(resolve => setTimeout(resolve, ms))]. *)
Definition delay (ms : Z) : Js unit :=
  fun w => (Normal tt, advance ms (emit (EvSleep ms) w)).

(** What [JSON.parse] reads, [None] where it raises. *)
Definition parsed (text : FileText) : option (list OpenRouterModel) :=
  match text with
  | Serialized models => Some models
  | Malformed _ => None
  end.

Definition JSON_parse (text : FileText) : Js (list OpenRouterModel) :=
  match parsed text with
  | Some models => ret models
  | None => throw (SyntaxError "Unexpected token in JSON")
  end.

Definition JSON_stringify (models : list OpenRouterModel) : FileText :=
  Serialized models.

Definition code_is (e : JsError) (c : string) : bool :=
  match err_code e with
  | Some c' => String.eqb c' c
  | None => false
  end.

(** ** Persistent cache helper *)

Definition getCachedModels : Js (option (list OpenRouterModel)) :=
  try_catch
    (stats <- fs_stat ;;
     now <- Date_now ;;
     if now - stats <? CACHE_TTL then
       data <- fs_readFile ;;
       models <- JSON_parse data ;;
       ret (Some models)
     else ret None)
    (fun error =>
       (if negb (code_is error "ENOENT") then
          console_error "Cache read error (possibly corrupted):" error ;;
          try_catch fs_unlink (fun _ => ret tt)
        else ret tt) ;;
       ret None).

Definition setCachedModels (models : list OpenRouterModel) : Js unit :=
  try_catch
    (fs_writeFile (JSON_stringify models))
    (fun error => console_error "Cache write error:" error).

(** ** Resilient fetch *)

(** Object spread of header maps: a later key replaces the earlier value in
    place, a new key is appended. *)
Fixpoint set_header (k v : string) (hs : list (string * string)) :=
  match hs with
  | [] => [(k, v)]
  | (k', v') :: rest =>
      if String.eqb k k' then (k, v) :: rest else (k', v') :: set_header k v rest
  end.

Definition spread (base extra : list (string * string)) :=
  fold_left (fun acc kv => set_header (fst kv) (snd kv) acc) extra base.

Definition default_headers : list (string * string) :=
  [("HTTP-Referer", "https://geminicli.com");
   ("X-Title", "Gemini CLI OpenRouter Extension")].

Definition with_default_headers (options : RequestInit) : RequestInit :=
  {| method := method options;
     headers := spread default_headers (headers options);
     init_body := init_body options |}.

(** One call of the global [fetch]; the 30 s abort timer shows as the
    [Rejects AbortError] outcome of the network. *)
Definition fetch (u : string) (options : RequestInit) : Js Response :=
  fun w =>
    let w1 := count_request (emit (EvFetch {| url := u; init := options |}) w) in
    match network w (sent w) with
    | Responds r => (Normal r, w1)
    | Rejects e => (Throw e, w1)
    end.

(** [s || fallback] on an optional string: the fallback replaces both a
    missing value and the empty string. *)
Definition or_default (s : option string) (fallback : string) : string :=
  match s with
  | Some v => if String.eqb v "" then fallback else v
  | None => fallback
  end.

(** [response.headers.get("Retry-After") || "10"]. *)
Definition retry_after (response : Response) : string :=
  or_default (headers_get response "Retry-After") "10".

Definition rate_limit_message (retryAfter : string) : string :=
  "Rate limited by OpenRouter. Please wait " ++ retryAfter ++ " seconds.".

Inductive LoopStep :=
| Continue
| Return (response : Response).

Definition backoff (attempt : nat) : Z := 2 ^ Z.of_nat attempt * 1000.

(** The identifier [response] as the [catch] clause sees it.  It is a
    [const] of the [try] block, so it is unbound in the handler and reading
    it raises before [?.] can apply. *)
Definition response_in_catch : Js Response :=
  throw (ReferenceError "response is not defined").

(** [attempt === retries || error.name === "AbortError" ||
     response?.status === 429], left to right. *)
Definition rethrow_test (attempt retries : nat) (error : JsError) : Js bool :=
  if (attempt =? retries)%nat then ret true
  else if String.eqb (err_name error) "AbortError" then ret true
  else (response <- response_in_catch ;; ret (status response =? 429)).

(** One iteration of the [for] loop. *)
Definition attempt_once (u : string) (options : RequestInit)
    (retries attempt : nat) : Js LoopStep :=
  try_catch
    (response <- fetch u (with_default_headers options) ;;
     if status response =? 429 then
       throw (Error (rate_limit_message (retry_after response)))
     else if (500 <=? status response) && (attempt <? retries)%nat then
       delay (backoff attempt) ;;
       ret Continue
     else ret (Return response))
    (fun error =>
       stop <- rethrow_test attempt retries error ;;
       if stop then throw error
       else (delay (backoff attempt) ;; ret Continue)).

(** [for (let attempt = 0; attempt <= retries; attempt++)]: [remaining]
    counts the iterations left, [retries + 1 - attempt]. *)
Fixpoint fetch_loop (remaining : nat) (u : string) (options : RequestInit)
    (retries attempt : nat) : Js Response :=
  match remaining with
  | O => throw (Error "Fetch failed after retries")
  | S remaining' =>
      step <- attempt_once u options retries attempt ;;
      match step with
      | Return response => ret response
      | Continue => fetch_loop remaining' u options retries (S attempt)
      end
  end.

Definition fetchWithRetry (u : string) (options : RequestInit) (retries : nat)
    : Js Response :=
  fetch_loop (S retries) u options retries 0.

Definition default_retries : nat := 2.

(** The earlier revision: one attempt, no retry loop. *)
Module SingleAttempt.

Definition fetchWithRetry (u : string) (options : RequestInit) : Js Response :=
  response <- fetch u (with_default_headers options) ;;
  if status response =? 429 then
    throw (Error (rate_limit_message (retry_after response)))
  else ret response.

End SingleAttempt.

(** ** Input validation *)

Definition validateInput (modelId prompt : JsVal) : Js unit :=
  if negb (truthy modelId) || negb (String.eqb (typeof modelId) "string")
     || length_exceeds modelId 255
  then throw (Error "Invalid or missing modelId")
  else if negb (truthy prompt) || negb (String.eqb (typeof prompt) "string")
          || length_exceeds prompt MAX_PROMPT_LENGTH
  then throw (Error ("Prompt must be a string between 1 and "
                       ++ show MAX_PROMPT_LENGTH ++ " characters"))
  else ret tt.

(** ** Tool execution *)

Record Arguments := {
  free : JsVal;
  query : JsVal;
  forceRefresh : JsVal;
  modelId : JsVal;
  prompt : JsVal
}.

Record CallToolRequest := {
  tool : string;                       (* [request.params.name] *)
  arguments : option Arguments         (* [request.params.arguments] *)
}.

Record ContentItem := {
  type : string;
  text : string
}.

Record CallToolResult := {
  isError : bool;                      (* an absent flag reads as [false] *)
  result_content : list ContentItem
}.

(** [args?.field]. *)
Definition arg (args : option Arguments) (field : Arguments -> JsVal) : JsVal :=
  match args with
  | Some a => field a
  | None => JUndefined
  end.

Definition text_result (t : string) : CallToolResult :=
  {| isError := false; result_content := [{| type := "text"; text := t |}] |}.

Definition error_result (e : JsError) : CallToolResult :=
  {| isError := true;
     result_content := [{| type := "text"; text := "Error: " ++ err_message e |}] |}.

Definition MODELS_URL : string := "https://openrouter.ai/api/v1/models".
Definition COMPLETIONS_URL : string := "https://openrouter.ai/api/v1/chat/completions".

(** [await response.json()]. *)
Definition response_json (response : Response) : Js OpenRouterResponse :=
  match body response with
  | Some json => ret json
  | None => throw (SyntaxError "Unexpected token in JSON")
  end.

(** The [list_models] branch, first half: the cache lookup and, on a miss
    or a forced refresh, the catalogue request and the cache write. *)
Definition load_models (args : option Arguments) : Js (list OpenRouterModel) :=
  models <- (if truthy (arg args forceRefresh) then ret None else getCachedModels) ;;
  match models with
  | Some models => ret models
  | None =>
      response <- fetchWithRetry MODELS_URL no_options default_retries ;;
      if negb (ok response) then
        throw (Error ("OpenRouter API error: " ++ show (status response)
                        ++ " " ++ statusText response))
      else
        json <- response_json response ;;
        let models := match data json with Some d => d | None => [] end in
        setCachedModels models ;;
        ret models
  end.

Definition is_free (m : OpenRouterModel) : bool := endsWith (id m) ":free".

Definition matches_query (queryLowerCase : string) (m : OpenRouterModel) : bool :=
  includes (toLowerCase (id m)) queryLowerCase
  || includes (toLowerCase (name m)) queryLowerCase.

(** The two conditional [filter] passes over [filteredModels]. *)
Definition apply_filters (args : option Arguments)
    (models : list OpenRouterModel) : list OpenRouterModel :=
  let filteredModels := models in
  let filteredModels :=
    if truthy (arg args free) then filter is_free filteredModels
    else filteredModels in
  if truthy (arg args query) then
    let queryLowerCase := toLowerCase (JsString (arg args query)) in
    filter (matches_query queryLowerCase) filteredModels
  else filteredModels.

Definition header : string :=
  "| Model ID | Tier | Name |" ++ newline ++ "| :--- | :--- | :--- |".

Definition tier (m : OpenRouterModel) : string :=
  if endsWith (id m) ":free" then "Free" else "Paid".

Definition row (m : OpenRouterModel) : string :=
  "| `" ++ id m ++ "` | " ++ tier m ++ " | " ++ name m ++ " |".

(** The text of the result: the Markdown table, or the fixed sentence. *)
Definition render (filteredModels : list OpenRouterModel) : string :=
  let rows := join newline (map row filteredModels) in
  if (0 <? length filteredModels)%nat then header ++ newline ++ rows
  else "No models found matching criteria.".

Definition list_models (args : option Arguments) : Js CallToolResult :=
  models <- load_models args ;;
  ret (text_result (render (apply_filters args models))).

Definition API_KEY_header (key : string) : list (string * string) :=
  [("Authorization", "Bearer " ++ key); ("Content-Type", "application/json")].

(** [json.choices?.[0]?.message?.content]. *)
Definition first_content (json : OpenRouterResponse) : option string :=
  match choices json with
  | Some (c :: _) =>
      match choice_message c with
      | Some m => content m
      | None => None
      end
  | _ => None
  end.

(** [errorJson.error?.message]. *)
Definition error_message (json : OpenRouterResponse) : option string :=
  match error json with
  | Some e => message e
  | None => None
  end.

(** Truthiness of an optional string. *)
Definition present (s : option string) : bool :=
  match s with
  | Some v => negb (String.eqb v "")
  | None => false
  end.

Definition completion_options (key : string) (a : Arguments) : RequestInit :=
  {| method := Some "POST";
     headers := API_KEY_header key;
     init_body := Some {| model := JsString (modelId a);
                          messages := [("user", JsString (prompt a))] |} |}.

(** The [prompt] branch.  Destructuring an absent argument object raises
    before [validateInput] is reached. *)
Definition send_prompt (key : string) (args : option Arguments) : Js CallToolResult :=
  match args with
  | None =>
      throw (TypeError
        "Cannot destructure property 'modelId' of 'args' as it is undefined.")
  | Some a =>
      validateInput (modelId a) (prompt a) ;;
      response <- fetchWithRetry COMPLETIONS_URL (completion_options key a)
                                 default_retries ;;
      if negb (ok response) then
        let fallback := "HTTP error " ++ show (status response) in
        msg <- try_catch
          (errorJson <- response_json response ;;
           ret (or_default (error_message errorJson) fallback))
          (fun _ => ret fallback) ;;
        throw (Error ("OpenRouter API Error: " ++ msg))
      else
        json <- response_json response ;;
        if negb (present (first_content json)) then
          throw (Error "Invalid response from OpenRouter: Missing content")
        else
          ret (text_result
                 (match first_content json with Some c => c | None => "" end))
  end.

(** The body of the [try] in the request handler. *)
Definition dispatch (key : string) (request : CallToolRequest) : Js CallToolResult :=
  if String.eqb (tool request) "list_models" then list_models (arguments request)
  else if String.eqb (tool request) "prompt" then send_prompt key (arguments request)
  else throw (Error ("Unknown tool: " ++ tool request)).

(** [try { ... } catch (error) { return { isError: true, ... } }]: the
    boundary every revision of the handler wraps around its body. *)
Definition catch_to_result (body : Js CallToolResult)
    (w : World) : CallToolResult * World :=
  match body w with
  | (Normal result, w') => (result, w')
  | (Throw e, w') => (error_result e, w')
  end.

(** The [CallToolRequestSchema] handler. *)
Definition handler (key : string) (request : CallToolRequest)
    : World -> CallToolResult * World :=
  catch_to_result (dispatch key request).

(** ** Tool definitions *)

(** One entry of [inputSchema.properties]. *)
Record PropertySchema := {
  property_type : string;
  property_description : string
}.

Record ToolDefinition := {
  tool_name : string;
  tool_description : string;
  tool_properties : list (string * PropertySchema);
  tool_required : list string          (* an absent [required] is empty *)
}.

(** The [ListToolsRequestSchema] handler: the [tools] array it returns. *)
Definition tools : list ToolDefinition :=
  [ {| tool_name := "list_models";
       tool_description := "List available models from OpenRouter";
       tool_properties :=
         [ ("free", {| property_type := "boolean";
                       property_description := "Filter only free models" |});
           ("query", {| property_type := "string";
                        property_description := "Filter models by name or ID" |});
           ("forceRefresh",
            {| property_type := "boolean";
               property_description := "Bypass cache and fetch fresh model list" |}) ];
       tool_required := [] |};
    {| tool_name := "prompt";
       tool_description := "Send a prompt to an OpenRouter model";
       tool_properties :=
         [ ("modelId",
            {| property_type := "string";
               property_description :=
                 "The ID of the model (e.g., 'google/gemini-2.0-flash-exp:free')" |});
           ("prompt", {| property_type := "string";
                         property_description := "The prompt message to send" |}) ];
       tool_required := ["modelId"; "prompt"] |} ].

(** [args[key]] for the keys the handler reads. *)
Definition property (a : Arguments) (key : string) : JsVal :=
  if String.eqb key "free" then free a
  else if String.eqb key "query" then query a
  else if String.eqb key "forceRefresh" then forceRefresh a
  else if String.eqb key "modelId" then modelId a
  else if String.eqb key "prompt" then prompt a
  else JUndefined.

(** ** The revision with the synchronous cache *)

(** [String.prototype.padEnd] with the default filler, a space. *)
Definition padEnd (s : string) (targetLength : nat) : string :=
  s ++ string_of_list_ascii
         (repeat " "%char (targetLength - String.length s)).

Module SyncCache.

(** [fs.existsSync]: a probe of the path that answers [false] on any
    failure instead of raising.  It is recorded as a metadata probe, like
    [stat]. *)
Definition fs_existsSync : Js bool :=
  fun w =>
    (Normal (match cache_file (disk w) with FsOk _ => true | FsFail _ => false end),
     emit EvStat w).

Definition getCachedModels : Js (option (list OpenRouterModel)) :=
  try_catch
    (there <- fs_existsSync ;;
     if there then
       stats <- fs_stat ;;
       now <- Date_now ;;
       if now - stats <? CACHE_TTL then
         data <- fs_readFile ;;
         models <- JSON_parse data ;;
         ret (Some models)
       else ret None
     else ret None)
    (fun error =>
       console_error "Cache read error:" error ;;
       ret None).

Definition setCachedModels (models : list OpenRouterModel) : Js unit :=
  try_catch
    (fs_writeFile (JSON_stringify models))
    (fun error => console_error "Cache write error:" error).

Definition load_models : Js (list OpenRouterModel) :=
  models <- getCachedModels ;;
  match models with
  | Some models => ret models
  | None =>
      response <- SingleAttempt.fetchWithRetry MODELS_URL no_options ;;
      if negb (ok response) then
        throw (Error ("OpenRouter API error: " ++ show (status response)
                        ++ " " ++ statusText response))
      else
        json <- response_json response ;;
        let models := match data json with Some d => d | None => [] end in
        setCachedModels models ;;
        ret models
  end.

Definition row (m : OpenRouterModel) : string :=
  padEnd (id m) 50 ++ " | " ++ name m.

(** [table || "No models found matching criteria."]. *)
Definition render (filteredModels : list OpenRouterModel) : string :=
  let table := join newline (map row filteredModels) in
  if String.eqb table "" then "No models found matching criteria." else table.

(** The [list_models] branch of this revision's handler. *)
Definition list_models (args : option Arguments) : Js CallToolResult :=
  models <- load_models ;;
  ret (text_result (render (apply_filters args models))).

End SyncCache.

(** * Specification vocabulary *)

(** The file is present, younger than the TTL, readable and parseable. *)
Definition cache_hit (w : World) (models : list OpenRouterModel) : Prop :=
  exists f text,
    cache_file (disk w) = FsOk f /\
    clock w - mtimeMs f < 300 * 1000 /\
    contents f = FsOk text /\
    parsed text = Some models.

Definition unlink_attempted (w w' : World) : Prop :=
  exists before after,
    trace w' = (trace w ++ before ++ EvUnlink :: after)%list.

(** The world after the [catch] clause has logged and tried to unlink. *)
Definition after_cleanup (e : JsError) (w : World) : World :=
  snd ((console_error "Cache read error (possibly corrupted):" e ;;
        try_catch fs_unlink (fun _ => ret tt)) w).

(** The world right after one request has been issued. *)
Definition requested (u : string) (options : RequestInit) (w : World) : World :=
  count_request
    (emit (EvFetch {| url := u; init := with_default_headers options |}) w).

(** The world after the back-off pause of [attempt]. *)
Definition paused (attempt : nat) (w : World) : World :=
  advance (backoff attempt) (emit (EvSleep (backoff attempt)) w).

(** The events of [n] retried attempts followed by a last one. *)
Fixpoint retry_trace (req : Request) (attempt n : nat) : list Event :=
  match n with
  | O => [EvFetch req]
  | S n' => EvFetch req :: EvSleep (backoff attempt) :: retry_trace req (S attempt) n'
  end.

(** The computation issues at least one request when run from [w]. *)
Definition performs_fetch {A} (m : Js A) (w : World) : Prop :=
  sent (snd (m w)) <> sent w.

(** The file cannot be turned into a model list: its text does not parse,
    or reading it fails for a reason other than the file being absent. *)
Definition corrupt (f : CacheFile) : Prop :=
  (exists text, contents f = FsOk text /\ parsed text = None)
  \/ (exists c, contents f = FsFail c /\ c <> "ENOENT").

(** The three ways the specification lists for an argument to be refused. *)
Definition not_a_string (v : JsVal) : Prop := forall s, v <> JStr s.

Definition rejected (v : JsVal) (max : Z) : Prop :=
  v = JStr ""
  \/ not_a_string v
  \/ (exists s, v = JStr s /\ max < Z.of_nat (String.length s)).

(** The test [validateInput] applies to each argument. *)
Definition fails_check (v : JsVal) (max : Z) : bool :=
  negb (truthy v) || negb (String.eqb (typeof v) "string") || length_exceeds v max.

(** The conjunction of the enabled filters, as the specification words it. *)
Definition keeps (args : option Arguments) (m : OpenRouterModel) : bool :=
  (if truthy (arg args free) then endsWith (id m) ":free" else true)
  && (if truthy (arg args query)
      then includes (toLowerCase (id m)) (toLowerCase (JsString (arg args query)))
           || includes (toLowerCase (name m))
                       (toLowerCase (JsString (arg args query)))
      else true).

Definition missing_content : JsError :=
  Error "Invalid response from OpenRouter: Missing content".

(** The value a header list gives a key: the first entry with that key. *)
Fixpoint header_value (k : string) (hs : list (string * string)) : option string :=
  match hs with
  | [] => None
  | (k', v) :: rest => if String.eqb k k' then Some v else header_value k rest
  end.

(** Events of the retry loop for one request: sending it, and pausing. *)
Definition only_requests (req : Request) (evs : list Event) : Prop :=
  Forall (fun ev => ev = EvFetch req \/ exists ms, ev = EvSleep ms) evs.

(** The world in which the catalogue request starts: after the cache
    lookup, or the initial one when the lookup is bypassed. *)
Definition after_lookup (args : option Arguments) (w : World) : World :=
  if truthy (arg args forceRefresh) then w else snd (getCachedModels w).

Definition needs_fetch (args : option Arguments) (w : World) : Prop :=
  truthy (arg args forceRefresh) = true \/ fst (getCachedModels w) = Normal None.

(** What follows the lookup when there is nothing to serve from the cache. *)
Definition refresh : Js (list OpenRouterModel) :=
  response <- fetchWithRetry MODELS_URL no_options default_retries ;;
  if negb (ok response) then
    throw (Error ("OpenRouter API error: " ++ show (status response)
                    ++ " " ++ statusText response))
  else
    json <- response_json response ;;
    let models := match data json with Some d => d | None => [] end in
    setCachedModels models ;;
    ret models.

(** The one request a listing may send: a plain GET of the catalogue with
    the two fixed headers and nothing else. *)
Definition catalogue_request : Request :=
  {| url := "https://openrouter.ai/api/v1/models";
     init := {| method := None;
                headers := [ ("HTTP-Referer", "https://geminicli.com");
                             ("X-Title", "Gemini CLI OpenRouter Extension") ];
                init_body := None |} |}.

(** [w'] continues the trace of [w] with events that all satisfy [P]. *)
Definition grows_by (P : Event -> Prop) (w w' : World) : Prop :=
  exists added, trace w' = (trace w ++ added)%list /\ Forall P added.

Definition not_a_request (ev : Event) : Prop := forall req, ev <> EvFetch req.

Definition catalogue_only (ev : Event) : Prop :=
  forall req, ev = EvFetch req -> req = catalogue_request.

(** The same arguments with only the [free] flag, or only the [query]. *)
Definition only_free (args : option Arguments) : option Arguments :=
  Some {| free := arg args free; query := JUndefined; forceRefresh := JUndefined;
          modelId := JUndefined; prompt := JUndefined |}.

Definition only_query (args : option Arguments) : option Arguments :=
  Some {| free := JUndefined; query := arg args query; forceRefresh := JUndefined;
          modelId := JUndefined; prompt := JUndefined |}.

(** Number of line feeds in a text. *)
Fixpoint count_newlines (s : string) : nat :=
  match s with
  | EmptyString => 0
  | String c s' =>
      (if Ascii.eqb c (ascii_of_nat 10) then 1 else 0) + count_newlines s'
  end.

(** The lines of a text: the pieces between its line feeds, as
    [text.split("\n")] gives them. *)
Fixpoint lines (s : string) : list string :=
  match s with
  | EmptyString => [EmptyString]
  | String c s' =>
      if Ascii.eqb c "010"%char then EmptyString :: lines s'
      else match lines s' with
           | l :: ls => String c l :: ls
           | [] => [String c EmptyString]
           end
  end.

(** Requests sent and time slept between two worlds stay within the budget
    of one retry loop with the default two retries. *)
Definition within_budget (w w' : World) : Prop :=
  (sent w <= sent w' <= sent w + 3)%nat
  /\ clock w <= clock w' <= clock w + 3000.

(** * Sample requests and worlds *)

Definition empty_disk : Disk :=
  {| cache_file := NoFile; unlink_fault := None; write_fault := None |}.

Definition disk_with (f : CacheFile) : Disk :=
  {| cache_file := FsOk f; unlink_fault := None; write_fault := None |}.

Definition world_of (d : Disk) (now : Z) (net : nat -> FetchOutcome) : World :=
  {| disk := d; clock := now; network := net; sent := 0; trace := [] |}.

Definition reply (code : Z) (reason : string) (retryAfter : option string)
    (json : option OpenRouterResponse) : Response :=
  {| status := code; statusText := reason;
     headers_get := fun h => if String.eqb h "Retry-After" then retryAfter else None;
     body := json |}.

Definition always (r : Response) : nat -> FetchOutcome := fun _ => Responds r.

Definition rate_limited_world : World :=
  world_of empty_disk 0 (always (reply 429 "Too Many Requests" (Some "7") None)).

Definition sample_models : list OpenRouterModel :=
  [ {| id := "meta-llama/llama-3.1-8b-instruct:free"; name := "Llama 3.1 8B" |};
    {| id := "openai/gpt-4o"; name := "GPT-4o" |};
    {| id := "mistralai/mistral-7b:free"; name := "Mistral 7B" |} ].

Definition fresh_world : World :=
  world_of (disk_with {| mtimeMs := 1000; contents := FsOk (Serialized sample_models) |})
           300999 (always (reply 200 "OK" None None)).

Definition stale_corrupt_world : World :=
  world_of (disk_with {| mtimeMs := 0; contents := FsOk (Malformed "{oops") |})
           300000 (always (reply 200 "OK" None None)).

Definition fresh_corrupt_world : World :=
  world_of (disk_with {| mtimeMs := 0; contents := FsOk (Malformed "{oops") |})
           299999 (always (reply 200 "OK" None None)).

Definition prompt_call (a : Arguments) : CallToolRequest :=
  {| tool := "prompt"; arguments := Some a |}.

Fixpoint filler (n : nat) : string :=
  match n with
  | O => EmptyString
  | S n' => String "a" (filler n')
  end.

Definition prompt_arguments (m p : JsVal) : Arguments :=
  {| free := JUndefined; query := JUndefined; forceRefresh := JUndefined;
     modelId := m; prompt := p |}.

Definition listing_arguments (f q r : JsVal) : Arguments :=
  {| free := f; query := q; forceRefresh := r;
     modelId := JUndefined; prompt := JUndefined |}.

Definition list_call (args : option Arguments) : CallToolRequest :=
  {| tool := "list_models"; arguments := args |}.

Definition completion (c : option string) : OpenRouterResponse :=
  {| data := None;
     choices := Some [{| choice_message := Some {| content := c |} |}];
     error := None |}.

Definition completion_world (json : OpenRouterResponse) : World :=
  world_of empty_disk 0 (always (reply 200 "OK" None (Some json))).

Definition hello : Arguments :=
  prompt_arguments (JStr "openai/gpt-4o") (JStr "Say hello").

Definition read_only_disk : Disk :=
  {| cache_file := NoFile; unlink_fault := None; write_fault := Some "EROFS" |}.

Definition flaky (n : nat) : FetchOutcome :=
  match n with
  | O => Responds (reply 503 "Service Unavailable" None None)
  | _ => Responds (reply 200 "OK" None None)
  end.

Definition catalogue : OpenRouterResponse :=
  {| data := Some sample_models; choices := None; error := None |}.

Definition catalogue_world : World :=
  world_of empty_disk 0 (always (reply 200 "OK" None (Some catalogue))).

Definition no_data : OpenRouterResponse :=
  {| data := None; choices := None; error := None |}.

Definition upstream_failure : OpenRouterResponse :=
  {| data := None; choices := None;
     error := Some {| message := Some "No endpoints found for this model";
                      code := Some 404 |} |}.

(** * Properties *)

(** ** String predicates *)

Lemma startsWith_spec (s p : string) :
  startsWith s p = true <-> exists r, s = p ++ r.
Proof.
  revert s; induction p as [|c p IH]; intros s; simpl.
  - split; [intros _; now exists s | reflexivity].
  - destruct s as [|d s].
    + split; [discriminate | intros [r H]; discriminate H].
    + rewrite andb_true_iff, IH. split.
      * intros [Hc [r ->]]. apply Ascii.eqb_eq in Hc. subst. now exists r.
      * intros [r H]. injection H as -> ->. split; [apply Ascii.eqb_refl | now exists r].
Qed.

Lemma includes_spec (s t : string) :
  includes s t = true <-> exists a b, s = a ++ t ++ b.
Proof.
  induction s as [|c s IH].
  - cbn [includes]. rewrite orb_false_r, startsWith_spec. split.
    + intros [r H]. now exists "", r.
    + intros [a [b H]]. destruct a; [now exists b | discriminate H].
  - cbn [includes]. rewrite orb_true_iff, startsWith_spec, IH. split.
    + intros [[r H] | [a [b H]]].
      * now exists "", r.
      * exists (String c a), b. simpl. now rewrite H.
    + intros [a [b H]]. destruct a as [|c' a].
      * left. now exists b.
      * right. simpl in H. injection H as _ H. now exists a, b.
Qed.

Lemma endsWith_spec (s suffix : string) :
  endsWith s suffix = true <-> exists p, s = p ++ suffix.
Proof.
  induction s as [|c s IH].
  - cbn [endsWith]. rewrite orb_false_r, String.eqb_eq. split.
    + intros H. now exists "".
    + intros [p H]. destruct p; [exact H | discriminate H].
  - cbn [endsWith]. rewrite orb_true_iff, String.eqb_eq, IH. split.
    + intros [H | [p H]].
      * now exists "".
      * exists (String c p). simpl. now rewrite H.
    + intros [p H]. destruct p as [|c' p].
      * now left.
      * right. simpl in H. injection H as _ H. now exists p.
Qed.

(** ** The cache read *)

Ltac js_cbn :=
  cbn -[Nat.ltb Nat.eqb Z.ltb Z.leb Z.eqb String.eqb CACHE_TTL backoff].

Ltac run :=
  unfold getCachedModels, setCachedModels, try_catch, bind, ret, throw,
    fs_stat, fs_readFile, fs_unlink, fs_writeFile, Date_now, console_error,
    effect, JSON_parse, delay, fetch;
  js_cbn.

Lemma fresh_test (age : Z) : age < CACHE_TTL -> (age <? CACHE_TTL) = true.
Proof. intros H. apply Z.ltb_lt. lia. Qed.

Lemma stale_test (age : Z) : CACHE_TTL <= age -> (age <? CACHE_TTL) = false.
Proof. intros H. apply Z.ltb_ge. lia. Qed.

Lemma getCachedModels_absent (w : World) :
  cache_file (disk w) = NoFile ->
  getCachedModels w = (Normal None, emit EvStat w).
Proof. intros H. run. rewrite H. reflexivity. Qed.

Lemma getCachedModels_stale (w : World) (f : CacheFile) :
  cache_file (disk w) = FsOk f ->
  CACHE_TTL <= clock w - mtimeMs f ->
  getCachedModels w = (Normal None, emit EvStat w).
Proof.
  intros H Hage. run. rewrite H. js_cbn.
  rewrite (stale_test Hage). reflexivity.
Qed.

Lemma getCachedModels_fresh_parsed (w : World) (f : CacheFile) text models :
  cache_file (disk w) = FsOk f ->
  clock w - mtimeMs f < CACHE_TTL ->
  contents f = FsOk text ->
  parsed text = Some models ->
  getCachedModels w = (Normal (Some models), emit EvReadFile (emit EvStat w)).
Proof.
  intros H Hage Hc Hp. run. rewrite H. js_cbn.
  rewrite (fresh_test Hage). js_cbn. rewrite H, Hc. js_cbn. rewrite Hp. reflexivity.
Qed.

Lemma after_cleanup_trace (e : JsError) (w : World) :
  trace (after_cleanup e w)
  = (trace w ++ [EvLog "Cache read error (possibly corrupted):" e; EvUnlink])%list.
Proof.
  unfold after_cleanup. run.
  destruct (unlink_fault (disk w)); js_cbn.
  - now rewrite <- app_assoc.
  - destruct (cache_file (disk w)); js_cbn; now rewrite <- app_assoc.
Qed.

Lemma after_cleanup_file (e : JsError) (w : World) :
  unlink_fault (disk w) = None ->
  cache_file (disk (after_cleanup e w)) =
    match cache_file (disk w) with FsOk _ => NoFile | FsFail c => FsFail c end.
Proof.
  intros Hu. unfold after_cleanup. run. rewrite Hu.
  destruct (cache_file (disk w)) eqn:E; js_cbn; rewrite ?E; reflexivity.
Qed.

Lemma getCachedModels_fresh_unparsed (w : World) (f : CacheFile) text :
  cache_file (disk w) = FsOk f ->
  clock w - mtimeMs f < CACHE_TTL ->
  contents f = FsOk text ->
  parsed text = None ->
  getCachedModels w
  = (Normal None,
     after_cleanup (SyntaxError "Unexpected token in JSON")
       (emit EvReadFile (emit EvStat w))).
Proof.
  intros H Hage Hc Hp. unfold after_cleanup. run. rewrite H. js_cbn.
  rewrite (fresh_test Hage). js_cbn. rewrite H, Hc. js_cbn. rewrite Hp. js_cbn. rewrite H.
  destruct (unlink_fault (disk w)); reflexivity.
Qed.

Lemma getCachedModels_fresh_unreadable (w : World) (f : CacheFile) c :
  cache_file (disk w) = FsOk f ->
  clock w - mtimeMs f < CACHE_TTL ->
  contents f = FsFail c ->
  getCachedModels w
  = (Normal None,
     if String.eqb c "ENOENT" then emit EvReadFile (emit EvStat w)
     else after_cleanup (SystemError c) (emit EvReadFile (emit EvStat w))).
Proof.
  intros H Hage Hc. unfold after_cleanup. run. rewrite H. js_cbn.
  rewrite (fresh_test Hage). js_cbn. rewrite H, Hc. js_cbn.
  destruct (String.eqb c "ENOENT"); js_cbn; [reflexivity |].
  rewrite H. destruct (unlink_fault (disk w)); reflexivity.
Qed.

Lemma getCachedModels_stat_fails (w : World) c :
  cache_file (disk w) = FsFail c ->
  getCachedModels w
  = (Normal None,
     if String.eqb c "ENOENT" then emit EvStat w
     else after_cleanup (SystemError c) (emit EvStat w)).
Proof.
  intros H. unfold after_cleanup. run. rewrite H. js_cbn.
  destruct (String.eqb c "ENOENT"); js_cbn; [reflexivity |].
  rewrite H. destruct (unlink_fault (disk w)); reflexivity.
Qed.

(** The read never throws, and answers [Some] only on a hit. *)
Lemma getCachedModels_result (w : World) :
  (exists models, cache_hit w models /\
                  fst (getCachedModels w) = Normal (Some models))
  \/ ((forall models, ~ cache_hit w models) /\
      fst (getCachedModels w) = Normal None).
Proof.
  destruct (cache_file (disk w)) as [f|c] eqn:Hf.
  - destruct (Z.ltb_spec (clock w - mtimeMs f) CACHE_TTL) as [Hage|Hage].
    + destruct (contents f) as [text|c] eqn:Hc.
      * destruct (parsed text) as [models|] eqn:Hp.
        -- left. exists models. split.
           ++ exists f, text. repeat split; assumption.
           ++ now rewrite (getCachedModels_fresh_parsed w Hf Hage Hc Hp).
        -- right. split.
           ++ intros models (f' & text' & Hf' & _ & Hc' & Hp'). congruence.
           ++ now rewrite (getCachedModels_fresh_unparsed w Hf Hage Hc Hp).
      * right. split.
        -- intros models (f' & text' & Hf' & _ & Hc' & _). congruence.
        -- now rewrite (getCachedModels_fresh_unreadable w Hf Hage Hc).
    + right. split.
      * intros models (f' & text' & Hf' & Hage' & _).
        assert (f' = f) by congruence. subst. unfold CACHE_TTL in Hage. lia.
      * now rewrite (getCachedModels_stale w Hf Hage).
  - right. split.
    + intros models (f' & text' & Hf' & _). congruence.
    + now rewrite (getCachedModels_stat_fails w Hf).
Qed.

Lemma after_cleanup_sent (e : JsError) (w : World) :
  sent (after_cleanup e w) = sent w.
Proof.
  unfold after_cleanup. run.
  destruct (unlink_fault (disk w)); js_cbn; [reflexivity |].
  destruct (cache_file (disk w)); reflexivity.
Qed.

Lemma getCachedModels_sent (w : World) :
  sent (snd (getCachedModels w)) = sent w.
Proof.
  destruct (cache_file (disk w)) as [f|c] eqn:Hf.
  - destruct (Z.ltb_spec (clock w - mtimeMs f) CACHE_TTL) as [Hage|Hage].
    + destruct (contents f) as [text|c] eqn:Hc.
      * destruct (parsed text) as [models|] eqn:Hp.
        -- now rewrite (getCachedModels_fresh_parsed w Hf Hage Hc Hp).
        -- rewrite (getCachedModels_fresh_unparsed w Hf Hage Hc Hp).
           cbn [snd]. now rewrite after_cleanup_sent.
      * rewrite (getCachedModels_fresh_unreadable w Hf Hage Hc). cbn [snd].
        destruct (String.eqb c "ENOENT"); [reflexivity |].
        now rewrite after_cleanup_sent.
    + now rewrite (getCachedModels_stale w Hf Hage).
  - rewrite (getCachedModels_stat_fails w Hf). cbn [snd].
    destruct (String.eqb c "ENOENT"); [reflexivity |].
    now rewrite after_cleanup_sent.
Qed.

Lemma setCachedModels_normal (models : list OpenRouterModel) (w : World) :
  fst (setCachedModels models w) = Normal tt /\
  sent (snd (setCachedModels models w)) = sent w.
Proof. run. destruct (write_fault (disk w)); js_cbn; auto. Qed.

(** ** The retry loop *)

Section OneAttempt.

Variables (u : string) (options : RequestInit) (retries attempt : nat).
Variable w : World.

Lemma attempt_once_429 (r : Response) :
  network w (sent w) = Responds r ->
  status r = 429 ->
  attempt_once u options retries attempt w
  = (Throw (if (attempt =? retries)%nat
            then Error (rate_limit_message (retry_after r))
            else ReferenceError "response is not defined"),
     requested u options w).
Proof.
  intros Hnet Hs. unfold attempt_once, rethrow_test, response_in_catch. run.
  rewrite Hnet, Hs, Z.eqb_refl.
  destruct (attempt =? retries)%nat; reflexivity.
Qed.

Lemma attempt_once_retry (r : Response) :
  network w (sent w) = Responds r ->
  500 <= status r ->
  (attempt < retries)%nat ->
  attempt_once u options retries attempt w
  = (Normal Continue, paused attempt (requested u options w)).
Proof.
  intros Hnet Hs Hlt. unfold attempt_once. run. rewrite Hnet.
  destruct (Z.eqb_spec (status r) 429); [lia |].
  destruct (Z.leb_spec 500 (status r)); [| lia].
  destruct (Nat.ltb_spec attempt retries); [| lia].
  reflexivity.
Qed.

Lemma attempt_once_return (r : Response) :
  network w (sent w) = Responds r ->
  status r <> 429 ->
  status r < 500 \/ (retries <= attempt)%nat ->
  attempt_once u options retries attempt w
  = (Normal (Return r), requested u options w).
Proof.
  intros Hnet Hs Hor. unfold attempt_once. run. rewrite Hnet.
  destruct (Z.eqb_spec (status r) 429); [contradiction |].
  destruct (Z.leb_spec 500 (status r)); js_cbn; [| reflexivity].
  destruct (Nat.ltb_spec attempt retries); [lia | reflexivity].
Qed.

Lemma attempt_once_rejected (e : JsError) :
  network w (sent w) = Rejects e ->
  attempt_once u options retries attempt w
  = (Throw (if (attempt =? retries)%nat || String.eqb (err_name e) "AbortError"
            then e
            else ReferenceError "response is not defined"),
     requested u options w).
Proof.
  intros Hnet. unfold attempt_once, rethrow_test, response_in_catch. run.
  rewrite Hnet.
  destruct (attempt =? retries)%nat; js_cbn; [reflexivity |].
  destruct (String.eqb (err_name e) "AbortError"); reflexivity.
Qed.

(** Whatever the outcome, an iteration issues exactly one request and
    leaves the network's script alone. *)
Lemma attempt_once_sent :
  sent (snd (attempt_once u options retries attempt w)) = S (sent w) /\
  network (snd (attempt_once u options retries attempt w)) = network w.
Proof.
  destruct (network w (sent w)) as [r|e] eqn:Hnet.
  - destruct (Z.eq_dec (status r) 429) as [Hs|Hs].
    + rewrite (attempt_once_429 Hnet Hs). split; reflexivity.
    + destruct (Z_lt_le_dec (status r) 500) as [Hlo|Hhi].
      * rewrite (attempt_once_return Hnet Hs (or_introl Hlo)). split; reflexivity.
      * destruct (Nat.ltb_spec attempt retries) as [Hlt|Hge].
        -- rewrite (attempt_once_retry Hnet Hhi Hlt). split; reflexivity.
        -- rewrite (attempt_once_return Hnet Hs (or_intror Hge)).
           split; reflexivity.
  - rewrite (attempt_once_rejected Hnet). split; reflexivity.
Qed.

End OneAttempt.

Lemma fetch_loop_sent (u : string) (options : RequestInit) (retries : nat) :
  forall remaining attempt w,
    let w' := snd (fetch_loop remaining u options retries attempt w) in
    (sent w + Nat.min 1 remaining <= sent w' <= sent w + remaining)%nat.
Proof.
  induction remaining as [|n IH]; intros attempt w; cbn zeta.
  - cbn. lia.
  - cbn [fetch_loop]. unfold bind.
    pose proof (attempt_once_sent u options retries attempt w) as [Hs _].
    destruct (attempt_once u options retries attempt w) as [[step|e] w1].
    + cbn [snd] in Hs. destruct step.
      * specialize (IH (S attempt) w1). cbn zeta in IH. lia.
      * cbn. lia.
    + cbn [snd] in *. lia.
Qed.

(** Every call issues at least one request and never more than
    [retries + 1]. *)
Lemma fetchWithRetry_sent (u : string) (options : RequestInit) (retries : nat)
    (w : World) :
  (sent w < sent (snd (fetchWithRetry u options retries w))
   <= sent w + S retries)%nat.
Proof.
  unfold fetchWithRetry.
  pose proof (fetch_loop_sent u options retries (S retries) 0 w) as H.
  cbn zeta in H. lia.
Qed.

Lemma fetch_loop_all_5xx (u : string) (options : RequestInit) (retries : nat)
    (rs : nat -> Response) :
  forall n attempt w,
    (attempt + n = retries)%nat ->
    (forall i, (i <= n)%nat ->
       network w (i + sent w) = Responds (rs (i + attempt)%nat) /\
       500 <= status (rs (i + attempt)%nat)) ->
    exists w',
      fetch_loop (S n) u options retries attempt w = (Normal (rs retries), w') /\
      sent w' = (S n + sent w)%nat /\
      trace w' = (trace w ++ retry_trace
                    {| url := u; init := with_default_headers options |}
                    attempt n)%list.
Proof.
  induction n as [|n IH]; intros attempt w Hsum Hnet.
  - destruct (Hnet 0%nat (Nat.le_refl _)) as [H0 Hs]. cbn in H0, Hs.
    assert (attempt = retries) by lia. subst attempt.
    cbn [fetch_loop]. unfold bind.
    rewrite (attempt_once_return u options (retries := retries) w H0);
      [| lia | right; lia].
    eexists. split; [reflexivity |]. split; reflexivity.
  - destruct (Hnet 0%nat (Nat.le_0_l _)) as [H0 Hs]. cbn in H0, Hs.
    cbn [fetch_loop]. unfold bind.
    rewrite (attempt_once_retry u options (retries := retries) w H0 Hs);
      [| lia].
    destruct (IH (S attempt) (paused attempt (requested u options w)))
      as (w' & Hrun & Hsent & Htrace).
    + lia.
    + intros i Hi. cbn [paused requested network sent advance emit count_request].
      specialize (Hnet (S i) ltac:(lia)).
      replace (i + S (sent w))%nat with (S i + sent w)%nat by lia.
      replace (i + S attempt)%nat with (S i + attempt)%nat by lia.
      exact Hnet.
    + exists w'. split; [exact Hrun |]. split.
      * rewrite Hsent. cbn. lia.
      * rewrite Htrace. cbn. rewrite <- !app_assoc. reflexivity.
Qed.

Lemma fetchWithRetry_all_5xx (u : string) (options : RequestInit) (retries : nat)
    (rs : nat -> Response) (w : World) :
  (forall i, (i <= retries)%nat ->
     network w (i + sent w) = Responds (rs i) /\ 500 <= status (rs i)) ->
  exists w',
    fetchWithRetry u options retries w = (Normal (rs retries), w') /\
    sent w' = (S retries + sent w)%nat /\
    trace w' = (trace w ++ retry_trace
                  {| url := u; init := with_default_headers options |}
                  0 retries)%list.
Proof.
  intros Hnet. unfold fetchWithRetry.
  apply fetch_loop_all_5xx; [lia |].
  intros i Hi. rewrite Nat.add_0_r. now apply Hnet.
Qed.

(** A 429 ends the loop at once, on whichever iteration it arrives; which
    error comes out depends on whether that iteration is the last one. *)
Lemma fetch_loop_429_stops (u : string) (options : RequestInit)
    (retries n attempt : nat) (w : World) (r : Response) :
  network w (sent w) = Responds r ->
  status r = 429 ->
  fetch_loop (S n) u options retries attempt w
  = (Throw (if (attempt =? retries)%nat
            then Error (rate_limit_message (retry_after r))
            else ReferenceError "response is not defined"),
     requested u options w).
Proof.
  intros Hnet Hs. cbn [fetch_loop]. unfold bind.
  now rewrite (attempt_once_429 u options retries attempt w Hnet Hs).
Qed.

Lemma fetchWithRetry_429_without_retries (u : string) (options : RequestInit)
    (w : World) (r : Response) :
  network w (sent w) = Responds r ->
  status r = 429 ->
  fetchWithRetry u options 0 w
  = (Throw (Error (rate_limit_message (retry_after r))), requested u options w).
Proof.
  intros Hnet Hs. unfold fetchWithRetry.
  now rewrite (fetch_loop_429_stops u options 0 0 0 w Hnet Hs).
Qed.

Lemma SingleAttempt_429 (u : string) (options : RequestInit) (w : World)
    (r : Response) :
  network w (sent w) = Responds r ->
  status r = 429 ->
  SingleAttempt.fetchWithRetry u options w
  = (Throw (Error (rate_limit_message (retry_after r))), requested u options w).
Proof.
  intros Hnet Hs. unfold SingleAttempt.fetchWithRetry. run.
  now rewrite Hnet, Hs, Z.eqb_refl.
Qed.

(** ** Rate limiting and back-off *)

(** C1, at the input where it breaks.  With the default two retries and a
    first response of status 429 carrying [Retry-After: 7], the retry loop
    stops after that single request, but what it throws is the
    [ReferenceError] raised inside its own [catch] clause, not the
    rate-limit error: the wait time never reaches the caller, and the tool
    result reads "Error: response is not defined".  The single-attempt
    revision reports "Please wait 7 seconds." on the same response. *)
Theorem fetchWithRetry_429_first_attempt :
  fst (fetchWithRetry MODELS_URL no_options default_retries rate_limited_world)
    = Throw (ReferenceError "response is not defined")
  /\ sent (snd (fetchWithRetry MODELS_URL no_options default_retries
                  rate_limited_world)) = 1%nat
  /\ fst (handler "key" {| tool := "list_models"; arguments := None |}
            rate_limited_world)
     = {| isError := true;
          result_content :=
            [{| type := "text"; text := "Error: response is not defined" |}] |}
  /\ fst (SingleAttempt.fetchWithRetry MODELS_URL no_options rate_limited_world)
     = Throw (Error "Rate limited by OpenRouter. Please wait 7 seconds.").
Proof. repeat split; vm_compute; reflexivity. Qed.

(** C7.  When the first three responses all carry a status of 500 or more,
    [fetchWithRetry] with two retries issues exactly three requests, sleeps
    1000 ms after the first and 2000 ms after the second, and hands the
    third response back to the caller as a normal return. *)
Theorem fetchWithRetry_5xx_backoff (u : string) (options : RequestInit)
    (w : World) (rs : nat -> Response) :
  (forall i, (i <= 2)%nat ->
     network w (i + sent w) = Responds (rs i) /\ 500 <= status (rs i)) ->
  let req := {| url := u; init := with_default_headers options |} in
  exists w',
    fetchWithRetry u options 2 w = (Normal (rs 2%nat), w') /\
    sent w' = (3 + sent w)%nat /\
    trace w' = (trace w ++ [EvFetch req; EvSleep 1000; EvFetch req;
                            EvSleep 2000; EvFetch req])%list.
Proof.
  intros Hnet req.
  destruct (fetchWithRetry_all_5xx u options rs w Hnet) as (w' & Hrun & Hs & Ht).
  exists w'. repeat split; assumption.
Qed.

Lemma fetchWithRetry_5xx_backoff_witness :
  let w := world_of empty_disk 0 (always (reply 503 "Service Unavailable" None None)) in
  let rs := fun _ : nat => reply 503 "Service Unavailable" None None in
  (forall i, (i <= 2)%nat ->
     network w (i + sent w) = Responds (rs i) /\ 500 <= status (rs i)) /\
  exists w',
    fetchWithRetry MODELS_URL no_options 2 w = (Normal (rs 2%nat), w') /\
    sent w' = (3 + sent w)%nat /\
    trace w' =
      (trace w ++
       [EvFetch {| url := MODELS_URL; init := with_default_headers no_options |};
        EvSleep 1000;
        EvFetch {| url := MODELS_URL; init := with_default_headers no_options |};
        EvSleep 2000;
        EvFetch {| url := MODELS_URL; init := with_default_headers no_options |}])%list.
Proof.
  intros w rs.
  assert (H : forall i, (i <= 2)%nat ->
     network w (i + sent w) = Responds (rs i) /\ 500 <= status (rs i)).
  { intros i _. split; [reflexivity | cbn; lia]. }
  split; [exact H |].
  exact (fetchWithRetry_5xx_backoff MODELS_URL no_options w rs H).
Defined.

(** ** Cache read and remote fetch *)

Lemma load_models_forced (args : option Arguments) (w : World) :
  truthy (arg args forceRefresh) = true ->
  performs_fetch (load_models args) w.
Proof.
  intros Hf. unfold performs_fetch, load_models, bind. rewrite Hf. cbn [ret].
  pose proof (fetchWithRetry_sent MODELS_URL no_options default_retries w) as Hs.
  destruct (fetchWithRetry MODELS_URL no_options default_retries w)
    as [[response|e] w1]; cbn [snd] in *; [| lia].
  destruct (negb (ok response)); [cbn; lia |].
  unfold response_json. destruct (body response) as [json|]; [| cbn; lia].
  cbn [ret].
  pose proof (setCachedModels_normal
                (match data json with Some d => d | None => [] end) w1) as [_ Hc].
  destruct (setCachedModels _ w1) as [[[]|e] w2]; cbn [snd ret] in *; lia.
Qed.

Lemma load_models_miss (args : option Arguments) (w : World) :
  truthy (arg args forceRefresh) = false ->
  fst (getCachedModels w) = Normal None ->
  performs_fetch (load_models args) w.
Proof.
  intros Hf Hmiss. unfold performs_fetch, load_models, bind. rewrite Hf.
  pose proof (getCachedModels_sent w) as Hg.
  destruct (getCachedModels w) as [c w0]. cbn [fst snd] in *. subst c.
  pose proof (fetchWithRetry_sent MODELS_URL no_options default_retries w0) as Hs.
  destruct (fetchWithRetry MODELS_URL no_options default_retries w0)
    as [[response|e] w1]; cbn [snd] in *; [| lia].
  destruct (negb (ok response)); [cbn; lia |].
  unfold response_json. destruct (body response) as [json|]; [| cbn; lia].
  cbn [ret].
  pose proof (setCachedModels_normal
                (match data json with Some d => d | None => [] end) w1) as [_ Hc].
  destruct (setCachedModels _ w1) as [[[]|e] w2]; cbn [snd ret] in *; lia.
Qed.

Lemma load_models_hit (args : option Arguments) (w : World) models :
  truthy (arg args forceRefresh) = false ->
  fst (getCachedModels w) = Normal (Some models) ->
  load_models args w = (Normal models, snd (getCachedModels w)) /\
  ~ performs_fetch (load_models args) w.
Proof.
  intros Hf Hhit. unfold performs_fetch, load_models, bind. rewrite Hf.
  pose proof (getCachedModels_sent w) as Hg.
  destruct (getCachedModels w) as [c w0]. cbn [fst snd] in *. subst c.
  split; [reflexivity |]. cbn. lia.
Qed.

Lemma list_models_sent (args : option Arguments) (w : World) :
  sent (snd (list_models args w)) = sent (snd (load_models args w)).
Proof.
  unfold list_models, bind.
  destruct (load_models args w) as [[models|e] w']; reflexivity.
Qed.

(** C2.  The cache read answers with the stored list exactly when the file
    exists, is younger than 300 seconds and parses; in every other case it
    answers [null] without throwing.  [list_models] goes to the network
    exactly when [forceRefresh] is truthy or the read is a miss. *)
Theorem cache_read_hit_iff_fresh (w : World) :
  (forall models,
      fst (getCachedModels w) = Normal (Some models) <-> cache_hit w models)
  /\ ((forall models, ~ cache_hit w models) <->
      fst (getCachedModels w) = Normal None)
  /\ (forall args,
        performs_fetch (list_models args) w <->
        truthy (arg args forceRefresh) = true
        \/ fst (getCachedModels w) = Normal None).
Proof.
  pose proof (getCachedModels_result w) as Hres.
  assert (Huniq : forall m1 m2, cache_hit w m1 -> cache_hit w m2 -> m1 = m2).
  { intros m1 m2 (f1 & t1 & Hf1 & _ & Hc1 & Hp1) (f2 & t2 & Hf2 & _ & Hc2 & Hp2).
    congruence. }
  split; [| split].
  - intros models. destruct Hres as [(m & Hhit & Hrun) | (Hno & Hrun)].
    + rewrite Hrun. split.
      * intros H. injection H as ->. exact Hhit.
      * intros H. now rewrite (Huniq _ _ H Hhit).
    + rewrite Hrun. split; [discriminate | intros H; now apply Hno in H].
  - destruct Hres as [(m & Hhit & Hrun) | (Hno & Hrun)].
    + rewrite Hrun. split; [intros H; now apply H in Hhit | discriminate].
    + split; [intros _; exact Hrun | intros _; exact Hno].
  - intros args. unfold performs_fetch. rewrite list_models_sent.
    fold (performs_fetch (load_models args) w).
    destruct (truthy (arg args forceRefresh)) eqn:Hf.
    + split; [now left | intros _; now apply load_models_forced].
    + destruct Hres as [(m & Hhit & Hrun) | (Hno & Hrun)].
      * split.
        -- intros H. now apply (load_models_hit args w Hf Hrun) in H.
        -- intros [H | H]; [discriminate | congruence].
      * split; [now right | intros _; now apply load_models_miss].
Qed.

Lemma cache_read_hit_iff_fresh_witness :
  cache_hit fresh_world sample_models /\
  fst (getCachedModels fresh_world) = Normal (Some sample_models) /\
  ~ performs_fetch (list_models None) fresh_world.
Proof.
  assert (Hhit : cache_hit fresh_world sample_models).
  { eexists _, _. repeat split; try reflexivity. }
  destruct (cache_read_hit_iff_fresh fresh_world) as (Hiff & _ & Hfetch).
  split; [exact Hhit |]. split.
  - now apply Hiff.
  - intros H. apply Hfetch in H. destruct H as [H | H].
    + discriminate H.
    + apply Hiff in Hhit. rewrite Hhit in H. discriminate H.
Defined.

(** ** Corrupt cache files *)

(** C6 as stated fails: a cache file whose contents do not parse, but which
    is already 300 seconds old, is reported as a miss by the next read
    without being read, and it is still on disk afterwards; no unlink is
    attempted. *)
Lemma stale_corrupt_file_survives_read :
  cache_file (disk stale_corrupt_world)
    = FsOk {| mtimeMs := 0; contents := FsOk (Malformed "{oops") |}
  /\ parsed (Malformed "{oops") = None
  /\ fst (getCachedModels stale_corrupt_world) = Normal None
  /\ cache_file (disk (snd (getCachedModels stale_corrupt_world)))
     = cache_file (disk stale_corrupt_world)
  /\ trace (snd (getCachedModels stale_corrupt_world)) = [EvStat]
  /\ ~ In EvUnlink (trace (snd (getCachedModels stale_corrupt_world))).
Proof.
  repeat split; try reflexivity.
  intros [H | []]. discriminate H.
Qed.

Lemma unlink_attempted_after_cleanup (e : JsError) (w w0 : World)
    (pre : list Event) :
  trace w0 = (trace w ++ pre)%list ->
  unlink_attempted w (after_cleanup e w0).
Proof.
  intros H.
  exists (pre ++ [EvLog "Cache read error (possibly corrupted):" e])%list, [].
  rewrite after_cleanup_trace, H, <- !app_assoc. reflexivity.
Qed.

(** C6, amended.  A corrupt cache file younger than 300 seconds makes the
    next read log the error, attempt the unlink and report a miss, and the
    file is gone whenever that unlink is not itself refused; so does a file
    that [stat] cannot reach for a reason other than absence.  An absent
    file, and a file aged 300 seconds or more whatever its contents, are
    reported as a miss after the [stat] alone: nothing is read or
    unlinked and the disk is unchanged. *)
Theorem corrupt_fresh_cache_unlinked (w : World) :
  let w' := snd (getCachedModels w) in
  (forall f, cache_file (disk w) = FsOk f ->
             clock w - mtimeMs f < 300 * 1000 ->
             corrupt f ->
             fst (getCachedModels w) = Normal None
             /\ unlink_attempted w w'
             /\ (unlink_fault (disk w) = None -> cache_file (disk w') = NoFile))
  /\ (forall c, cache_file (disk w) = FsFail c -> c <> "ENOENT" ->
                fst (getCachedModels w) = Normal None /\ unlink_attempted w w')
  /\ (cache_file (disk w) = NoFile ->
      getCachedModels w = (Normal None, emit EvStat w))
  /\ (forall f, cache_file (disk w) = FsOk f ->
                300 * 1000 <= clock w - mtimeMs f ->
                getCachedModels w = (Normal None, emit EvStat w)).
Proof.
  cbn zeta. split; [| split; [| split]].
  - intros f Hf Hage [(text & Hc & Hp) | (c & Hc & Hne)].
    + rewrite (getCachedModels_fresh_unparsed w Hf Hage Hc Hp). cbn [fst snd].
      split; [reflexivity |]. split.
      * apply unlink_attempted_after_cleanup with (pre := [EvStat; EvReadFile]).
        cbn. now rewrite <- app_assoc.
      * intros Hu. rewrite after_cleanup_file by exact Hu. cbn. now rewrite Hf.
    + rewrite (getCachedModels_fresh_unreadable w Hf Hage Hc). cbn [fst snd].
      apply String.eqb_neq in Hne. rewrite Hne.
      split; [reflexivity |]. split.
      * apply unlink_attempted_after_cleanup with (pre := [EvStat; EvReadFile]).
        cbn. now rewrite <- app_assoc.
      * intros Hu. rewrite after_cleanup_file by exact Hu. cbn. now rewrite Hf.
  - intros c Hf Hne. rewrite (getCachedModels_stat_fails w Hf). cbn [fst snd].
    apply String.eqb_neq in Hne. rewrite Hne.
    split; [reflexivity |].
    now apply unlink_attempted_after_cleanup with (pre := [EvStat]).
  - apply getCachedModels_absent.
  - intros f Hf Hage. now apply (getCachedModels_stale w Hf).
Qed.

Lemma corrupt_fresh_cache_unlinked_witness :
  clock fresh_corrupt_world - 0 < 300 * 1000
  /\ corrupt {| mtimeMs := 0; contents := FsOk (Malformed "{oops") |}
  /\ fst (getCachedModels fresh_corrupt_world) = Normal None
  /\ unlink_attempted fresh_corrupt_world (snd (getCachedModels fresh_corrupt_world))
  /\ cache_file (disk (snd (getCachedModels fresh_corrupt_world))) = NoFile.
Proof.
  assert (Hage : clock fresh_corrupt_world - 0 < 300 * 1000) by (cbn; lia).
  assert (Hc : corrupt {| mtimeMs := 0; contents := FsOk (Malformed "{oops") |}).
  { left. now exists (Malformed "{oops"). }
  destruct (corrupt_fresh_cache_unlinked fresh_corrupt_world) as (Hfresh & _).
  destruct (Hfresh _ eq_refl Hage Hc) as (Hmiss & Hun & Hgone).
  split; [exact Hage |]. split; [exact Hc |]. split; [exact Hmiss |].
  split; [exact Hun | now apply Hgone].
Defined.

(** ** Input validation *)

Lemma fails_check_iff (v : JsVal) (max : Z) :
  fails_check v max = true <-> rejected v max.
Proof.
  unfold fails_check, rejected, not_a_string.
  destruct v as [| |b|n|s|p].
  1-4, 6:
    (split;
     [ intros _; right; left; intros s; discriminate
     | intros _; cbn; try destruct b; try destruct (Z.eqb n 0); reflexivity ]).
  cbn -[Z.ltb Z.of_nat].
  rewrite orb_false_r, orb_true_iff, negb_true_iff, negb_false_iff,
    String.eqb_eq, Z.ltb_lt.
  split.
  - intros [-> | H]; [now left | right; right; now exists s].
  - intros [H | [H | (s' & H & Hlen)]].
    + injection H as ->. now left.
    + now destruct (H s).
    + injection H as <-. now right.
Qed.

Lemma validateInput_unfold (m p : JsVal) :
  validateInput m p =
  if fails_check m 255 then throw (Error "Invalid or missing modelId")
  else if fails_check p 15000
       then throw (Error "Prompt must be a string between 1 and 15000 characters")
       else ret tt.
Proof. reflexivity. Qed.

Lemma handler_prompt (key : string) (a : Arguments) :
  handler key (prompt_call a) = catch_to_result (send_prompt key (Some a)).
Proof. reflexivity. Qed.

(** C3.  A [prompt] call whose [modelId] is empty, not a string or longer
    than 255 characters ends in the error result "Invalid or missing
    modelId"; one whose [modelId] is acceptable but whose [prompt] is empty,
    not a string or longer than 15000 characters ends in the error result
    "Prompt must be a string between 1 and 15000 characters".  In both cases
    the world is untouched: no request is sent.  A prompt of 15001
    characters is refused; one of 15000 characters, with an acceptable model
    id, passes validation.  A call with no argument object at all fails at
    the destructuring, again before any request. *)
Theorem prompt_validation (key : string) (a : Arguments) (w : World) :
  (rejected (modelId a) 255 ->
   handler key (prompt_call a) w
   = (error_result (Error "Invalid or missing modelId"), w))
  /\ (~ rejected (modelId a) 255 -> rejected (prompt a) 15000 ->
      handler key (prompt_call a) w
      = (error_result
           (Error "Prompt must be a string between 1 and 15000 characters"), w))
  /\ (forall s, prompt a = JStr s -> Z.of_nat (String.length s) = 15001 ->
                isError (fst (handler key (prompt_call a) w)) = true
                /\ snd (handler key (prompt_call a) w) = w)
  /\ (forall s, prompt a = JStr s -> Z.of_nat (String.length s) = 15000 ->
                ~ rejected (modelId a) 255 ->
                validateInput (modelId a) (prompt a) w = (Normal tt, w))
  /\ (isError (fst (handler key {| tool := "prompt"; arguments := None |} w)) = true
      /\ snd (handler key {| tool := "prompt"; arguments := None |} w) = w).
Proof.
  assert (Hrun : handler key (prompt_call a) w =
    if fails_check (modelId a) 255
    then (error_result (Error "Invalid or missing modelId"), w)
    else if fails_check (prompt a) 15000
    then (error_result
            (Error "Prompt must be a string between 1 and 15000 characters"), w)
    else catch_to_result (send_prompt key (Some a)) w).
  { rewrite handler_prompt.
    unfold catch_to_result, send_prompt, bind. rewrite validateInput_unfold.
    destruct (fails_check (modelId a) 255); [reflexivity |].
    destruct (fails_check (prompt a) 15000); reflexivity. }
  split; [| split; [| split; [| split; [| split; reflexivity]]]].
  - intros H. apply fails_check_iff in H. now rewrite Hrun, H.
  - intros Hm Hp. apply fails_check_iff in Hp. rewrite Hrun, Hp.
    destruct (fails_check (modelId a) 255) eqn:Hc; [| reflexivity].
    apply fails_check_iff in Hc. contradiction.
  - intros s Hs Hlen.
    assert (Hp : fails_check (prompt a) 15000 = true).
    { apply fails_check_iff. right. right. exists s. split; [exact Hs | lia]. }
    rewrite Hrun, Hp.
    destruct (fails_check (modelId a) 255); split; reflexivity.
  - intros s Hs Hlen Hm. rewrite validateInput_unfold.
    destruct (fails_check (modelId a) 255) eqn:Hc.
    + apply fails_check_iff in Hc. contradiction.
    + rewrite Hs. unfold fails_check.
      assert (Hne : (s =? "")%string = false).
      { apply String.eqb_neq. intros ->. discriminate Hlen. }
      cbn -[Z.ltb Z.of_nat]. rewrite Hne, Hlen. reflexivity.
Qed.

Lemma prompt_validation_witness :
  rejected (JStr "") 255
  /\ handler "key" (prompt_call (prompt_arguments (JStr "") (JStr "x")))
       rate_limited_world
     = (error_result (Error "Invalid or missing modelId"), rate_limited_world)
  /\ isError (fst (handler "key"
                     (prompt_call
                        (prompt_arguments (JStr "openai/gpt-4o")
                                          (JStr (filler (Z.to_nat 15001)))))
                     rate_limited_world)) = true
  /\ validateInput (JStr "openai/gpt-4o") (JStr (filler (Z.to_nat 15000)))
       rate_limited_world
     = (Normal tt, rate_limited_world).
Proof.
  assert (Hrej : rejected (JStr "") 255) by now left.
  split; [exact Hrej |]. split; [| split].
  - destruct (prompt_validation "key" (prompt_arguments (JStr "") (JStr "x"))
                rate_limited_world) as (H & _).
    exact (H Hrej).
  - destruct (prompt_validation "key"
                (prompt_arguments (JStr "openai/gpt-4o")
                                  (JStr (filler (Z.to_nat 15001))))
                rate_limited_world) as (_ & _ & H & _).
    apply (H (filler (Z.to_nat 15001))); [reflexivity | vm_compute; reflexivity].
  - destruct (prompt_validation "key"
                (prompt_arguments (JStr "openai/gpt-4o")
                                  (JStr (filler (Z.to_nat 15000))))
                rate_limited_world) as (_ & _ & _ & H & _).
    apply (H (filler (Z.to_nat 15000))); [reflexivity | vm_compute; reflexivity |].
    intros Hr. apply fails_check_iff in Hr. vm_compute in Hr. discriminate Hr.
Defined.

(** ** Filters and rendering *)

Lemma filter_twice {A} (f g : A -> bool) (l : list A) :
  filter g (filter f l) = filter (fun x => f x && g x) l.
Proof.
  induction l as [|x l IH]; [reflexivity |]. cbn.
  destruct (f x); cbn; [destruct (g x) |]; now rewrite IH.
Qed.

Lemma filter_all {A} (l : list A) : filter (fun _ => true) l = l.
Proof. induction l as [|x l IH]; [reflexivity |]. cbn. now rewrite IH. Qed.

Lemma apply_filters_keeps (args : option Arguments)
    (models : list OpenRouterModel) :
  apply_filters args models = filter (keeps args) models.
Proof.
  unfold apply_filters, keeps, matches_query, is_free.
  destruct (truthy (arg args free)), (truthy (arg args query)); cbn zeta.
  - apply filter_twice.
  - apply filter_ext. intros m. now rewrite andb_true_r.
  - reflexivity.
  - symmetry. apply filter_all.
Qed.

(** C5.  [list_models] keeps exactly the entries that pass every enabled
    filter, in their original order: with [free] truthy the id must end in
    ":free"; with [query] truthy the lower-cased query must occur in the
    lower-cased id or name; with neither, every entry is kept. *)
Theorem list_models_filters (args : option Arguments)
    (models : list OpenRouterModel) :
  apply_filters args models = filter (keeps args) models
  /\ (forall m,
        In m (apply_filters args models) <->
        In m models
        /\ (truthy (arg args free) = true -> exists p, id m = p ++ ":free")
        /\ (truthy (arg args query) = true ->
            let q := toLowerCase (JsString (arg args query)) in
            (exists a b, toLowerCase (id m) = a ++ q ++ b)
            \/ (exists a b, toLowerCase (name m) = a ++ q ++ b)))
  /\ (truthy (arg args free) = false -> truthy (arg args query) = false ->
      apply_filters args models = models)
  /\ (forall w w',
        load_models args w = (Normal models, w') ->
        list_models args w
        = (Normal (text_result (render (filter (keeps args) models))), w')).
Proof.
  split; [apply apply_filters_keeps |]. split; [| split].
  - intros m. rewrite apply_filters_keeps, filter_In. unfold keeps.
    rewrite andb_true_iff.
    destruct (truthy (arg args free)), (truthy (arg args query)); cbn zeta;
      rewrite ?orb_true_iff, ?endsWith_spec, ?includes_spec;
      intuition discriminate.
  - intros Hf Hq. unfold apply_filters. now rewrite Hf, Hq.
  - intros w w' Hload. unfold list_models, bind. rewrite Hload.
    now rewrite apply_filters_keeps.
Qed.

Lemma list_models_filters_witness :
  apply_filters (Some (listing_arguments (JBool true) (JStr "LLAMA") JUndefined))
                sample_models
  = [ {| id := "meta-llama/llama-3.1-8b-instruct:free"; name := "Llama 3.1 8B" |} ]
  /\ apply_filters None sample_models = sample_models.
Proof.
  split.
  - destruct (list_models_filters
                (Some (listing_arguments (JBool true) (JStr "LLAMA") JUndefined))
                sample_models) as (H & _).
    rewrite H. vm_compute. reflexivity.
  - destruct (list_models_filters None sample_models) as (_ & _ & H & _).
    apply H; reflexivity.
Defined.

Lemma handler_list_models (key : string) (args : option Arguments) :
  handler key (list_call args) = catch_to_result (list_models args).
Proof. reflexivity. Qed.

Lemma render_nonempty (m : OpenRouterModel) (rest : list OpenRouterModel) :
  render (m :: rest) = header ++ newline ++ join newline (map row (m :: rest)).
Proof. reflexivity. Qed.

Lemma count_newlines_app (s t : string) :
  count_newlines (s ++ t) = (count_newlines s + count_newlines t)%nat.
Proof.
  induction s as [|c s IH]; [reflexivity |]. cbn. rewrite IH. lia.
Qed.

Lemma lines_single (s : string) :
  count_newlines s = 0%nat -> lines s = [s].
Proof.
  induction s as [|c s IH]; [reflexivity |]. cbn [count_newlines lines].
  change (ascii_of_nat 10) with "010"%char.
  destruct (Ascii.eqb c "010"); [discriminate |].
  intros H. now rewrite (IH H).
Qed.

Lemma lines_cons (s t : string) :
  count_newlines s = 0%nat ->
  lines (s ++ String "010" t) = s :: lines t.
Proof.
  induction s as [|c s IH]; [reflexivity |]. cbn [count_newlines lines append].
  change (ascii_of_nat 10) with "010"%char.
  destruct (Ascii.eqb c "010"); [discriminate |].
  intros H. now rewrite (IH H).
Qed.

Lemma lines_concat (rows : list string) :
  rows <> [] ->
  (forall r, In r rows -> count_newlines r = 0%nat) ->
  lines (String.concat (String "010" EmptyString) rows) = rows.
Proof.
  induction rows as [|r rest IH]; intros Hne Hrows; [contradiction |].
  destruct rest as [|r' rest'].
  - cbn [String.concat]. apply lines_single, Hrows. now left.
  - change (String.concat (String "010" EmptyString) (r :: r' :: rest'))
      with (r ++ String "010"
                   (String.concat (String "010" EmptyString) (r' :: rest'))).
    rewrite lines_cons by (apply Hrows; now left).
    rewrite IH; [reflexivity | discriminate |].
    intros x Hx. apply Hrows. now right.
Qed.

(** The text of a table, read back line by line. *)
Lemma lines_table (h1 h2 : string) (rows : list string) :
  count_newlines h1 = 0%nat ->
  count_newlines h2 = 0%nat ->
  rows <> [] ->
  (forall r, In r rows -> count_newlines r = 0%nat) ->
  lines (h1 ++ String "010" EmptyString ++ h2 ++ String "010" EmptyString
            ++ String.concat (String "010" EmptyString) rows)
  = h1 :: h2 :: rows.
Proof.
  intros H1 H2 Hne Hrows.
  change (h1 ++ String "010" EmptyString ++ h2 ++ String "010" EmptyString
             ++ String.concat (String "010" EmptyString) rows)
    with (h1 ++ String "010"
                  (h2 ++ String "010"
                           (String.concat (String "010" EmptyString) rows))).
  now rewrite (@lines_cons h1 _ H1), (@lines_cons h2 _ H2),
    (@lines_concat rows Hne Hrows).
Qed.

(** C9.  Whenever [list_models] has obtained a model list, its answer is a
    plain (non-error) text.  If no entry survives the filters it is exactly
    the sentence "No models found matching criteria.".  Otherwise it is the
    two header lines "| Model ID | Tier | Name |" and "| :--- | :--- | :--- |"
    followed, each after a line feed, by one row per surviving entry in
    order, the row of an entry being "| `<id>` | <tier> | <name> |" with the
    tier "Free" exactly when the id ends in ":free" and "Paid" otherwise;
    this text is never the "No models found" sentence.  Read back line by
    line (ids and names being free of line feeds), the text has exactly
    two lines more than there are surviving entries, and line [2 + i] is the
    row of the [i]-th surviving entry. *)
Theorem list_models_rendering (key : string) (args : option Arguments)
    (w w' : World) (models : list OpenRouterModel) :
  load_models args w = (Normal models, w') ->
  let kept := apply_filters args models in
  let LF := String "010"%char EmptyString in
  let shown := fun m : OpenRouterModel =>
    "| `" ++ id m ++ "` | "
    ++ (if endsWith (id m) ":free" then "Free" else "Paid")
    ++ " | " ++ name m ++ " |" in
  exists t,
    handler key (list_call args) w = (text_result t, w')
    /\ (kept = [] -> t = "No models found matching criteria.")
    /\ (kept <> [] ->
        t = "| Model ID | Tier | Name |" ++ LF ++ "| :--- | :--- | :--- |" ++ LF
            ++ String.concat LF (map shown kept)
        /\ t <> "No models found matching criteria."
        /\ ((forall m, In m kept ->
               count_newlines (id m) = 0%nat /\ count_newlines (name m) = 0%nat) ->
            lines t = "| Model ID | Tier | Name |" :: "| :--- | :--- | :--- |"
                      :: map shown kept
            /\ length (lines t) = (2 + length kept)%nat
            /\ forall i m, nth_error kept i = Some m ->
                           nth_error (lines t) (2 + i) = Some (shown m)))
    /\ (forall m : OpenRouterModel,
          endsWith (id m) ":free" = true <-> exists p, id m = p ++ ":free").
Proof.
  intros Hload kept LF shown. exists (render kept).
  split; [| split; [| split]].
  - rewrite handler_list_models. unfold catch_to_result, list_models, bind.
    now rewrite Hload.
  - intros ->. reflexivity.
  - intros Hne.
    assert (Ht : render kept
                 = "| Model ID | Tier | Name |" ++ LF
                   ++ "| :--- | :--- | :--- |" ++ LF
                   ++ String.concat LF (map shown kept)).
    { destruct kept as [|m rest]; [contradiction |].
      rewrite render_nonempty. reflexivity. }
    split; [exact Ht |]. split.
    + destruct kept as [|m rest]; [contradiction |].
      rewrite render_nonempty. discriminate.
    + intros Hclean.
      assert (Hlines : lines (render kept)
                       = "| Model ID | Tier | Name |"
                         :: "| :--- | :--- | :--- |" :: map shown kept).
      { rewrite Ht. apply lines_table; try reflexivity.
        - destruct kept; [contradiction | discriminate].
        - intros r Hr. apply in_map_iff in Hr. destruct Hr as (m & <- & Hin).
          destruct (Hclean m Hin) as (Hid & Hname). subst shown. cbv beta.
          rewrite !count_newlines_app, Hid, Hname.
          destruct (endsWith (id m) ":free"); reflexivity. }
      split; [exact Hlines |]. split.
      * rewrite Hlines. cbn [length]. now rewrite length_map.
      * intros i m Hi. rewrite Hlines. cbn [Nat.add nth_error].
        now rewrite nth_error_map, Hi.
  - intros m. apply endsWith_spec.
Qed.

Lemma list_models_rendering_witness :
  load_models None fresh_world
  = (Normal sample_models, snd (getCachedModels fresh_world))
  /\ exists t,
       handler "key" (list_call None) fresh_world
       = (text_result t, snd (getCachedModels fresh_world))
       /\ lines t
          = [ "| Model ID | Tier | Name |";
              "| :--- | :--- | :--- |";
              "| `meta-llama/llama-3.1-8b-instruct:free` | Free | Llama 3.1 8B |";
              "| `openai/gpt-4o` | Paid | GPT-4o |";
              "| `mistralai/mistral-7b:free` | Free | Mistral 7B |" ].
Proof.
  assert (H : load_models None fresh_world
              = (Normal sample_models, snd (getCachedModels fresh_world)))
    by reflexivity.
  split; [exact H |].
  destruct (@list_models_rendering "key" _ _ _ _ H) as (t & Hrun & _ & Hrows & _).
  exists t. split; [exact Hrun |].
  destruct Hrows as (_ & _ & Hread); [discriminate |].
  destruct Hread as (Hlines & _).
  - intros m Hin. cbn in Hin.
    destruct Hin as [<- | [<- | [<- | []]]]; split; reflexivity.
  - rewrite Hlines. reflexivity.
Defined.

(** ** Completion responses *)

Section Completion2xx.

Variables (key : string) (a : Arguments) (w w' : World).
Variables (response : Response) (json : OpenRouterResponse).

Hypothesis valid_model : ~ rejected (modelId a) 255.
Hypothesis valid_prompt : ~ rejected (prompt a) 15000.
Hypothesis fetched :
  fetchWithRetry COMPLETIONS_URL (completion_options key a) default_retries w
  = (Normal response, w').
Hypothesis success : ok response = true.
Hypothesis parsed_body : body response = Some json.

Lemma send_prompt_2xx :
  send_prompt key (Some a) w =
  if present (first_content json)
  then (Normal (text_result
                  (match first_content json with Some c => c | None => "" end)),
        w')
  else (Throw missing_content, w').
Proof.
  unfold send_prompt, bind. rewrite validateInput_unfold.
  destruct (fails_check (modelId a) 255) eqn:Hm;
    [apply fails_check_iff in Hm; contradiction |].
  destruct (fails_check (prompt a) 15000) eqn:Hp;
    [apply fails_check_iff in Hp; contradiction |].
  cbn [ret]. rewrite fetched, success. cbn [negb].
  unfold response_json. rewrite parsed_body. cbn [ret].
  destruct (present (first_content json)); reflexivity.
Qed.

Lemma handler_2xx_content (c : string) :
  first_content json = Some c -> c <> "" ->
  handler key (prompt_call a) w = (text_result c, w').
Proof.
  intros Hc Hne. rewrite handler_prompt. unfold catch_to_result.
  rewrite send_prompt_2xx, Hc. cbn [present].
  apply String.eqb_neq in Hne. now rewrite Hne.
Qed.

Lemma handler_2xx_falsy :
  first_content json = None \/ first_content json = Some "" ->
  handler key (prompt_call a) w = (error_result missing_content, w').
Proof.
  intros H. rewrite handler_prompt. unfold catch_to_result.
  rewrite send_prompt_2xx. now destruct H as [-> | ->].
Qed.

End Completion2xx.

(** C4 as stated fails: a 2xx completion whose first choice carries the
    content [""] does not make [prompt] return that content; the call ends
    in the "Invalid response" error. *)
Lemma empty_content_not_returned :
  ok (reply 200 "OK" None (Some (completion (Some "")))) = true
  /\ first_content (completion (Some "")) = Some ""
  /\ fst (handler "key" (prompt_call hello) (completion_world (completion (Some ""))))
     <> text_result ""
  /\ isError (fst (handler "key" (prompt_call hello)
                     (completion_world (completion (Some ""))))) = true.
Proof.
  split; [reflexivity |]. split; [reflexivity |]. split.
  - vm_compute. discriminate.
  - vm_compute. reflexivity.
Qed.

(** C4, amended.  For a validated [prompt] call whose request ends with a 2xx
    response and a parsed body: if the first choice's message content is
    present and not empty, the result is that content as plain text; if it
    is absent (no choices, no first choice, no message or no content) or
    empty, the result is the error "Invalid response from OpenRouter:
    Missing content", never an empty text. *)
Theorem prompt_returns_nonempty_content (key : string) (a : Arguments)
    (w w' : World) (response : Response) (json : OpenRouterResponse) :
  ~ rejected (modelId a) 255 ->
  ~ rejected (prompt a) 15000 ->
  fetchWithRetry COMPLETIONS_URL (completion_options key a) default_retries w
    = (Normal response, w') ->
  ok response = true ->
  body response = Some json ->
  (forall c, first_content json = Some c -> c <> "" ->
             handler key (prompt_call a) w = (text_result c, w'))
  /\ (first_content json = None \/ first_content json = Some "" ->
      handler key (prompt_call a) w
      = ({| isError := true;
            result_content :=
              [{| type := "text";
                  text := "Error: Invalid response from OpenRouter: Missing content" |}] |},
         w'))
  /\ fst (handler key (prompt_call a) w) <> text_result "".
Proof.
  intros Hm Hp Hfetch Hok Hbody. split; [| split].
  - intros c. now apply handler_2xx_content with (response := response).
  - intros H. now apply handler_2xx_falsy with (response := response) (json := json).
  - destruct (first_content json) as [c|] eqn:Hc.
    + destruct (String.eqb_spec c "") as [-> | Hne].
      * rewrite (@handler_2xx_falsy key a w w' response json Hm Hp Hfetch Hok Hbody (or_intror Hc)).
        discriminate.
      * rewrite (@handler_2xx_content key a w w' response json Hm Hp Hfetch Hok Hbody c Hc Hne).
        cbn [fst]. unfold text_result. intros H. injection H as H. contradiction.
    + rewrite (@handler_2xx_falsy key a w w' response json Hm Hp Hfetch Hok Hbody (or_introl Hc)).
      discriminate.
Qed.

Lemma hello_valid :
  ~ rejected (modelId hello) 255 /\ ~ rejected (prompt hello) 15000.
Proof.
  split; intros H; apply fails_check_iff in H; vm_compute in H; discriminate H.
Qed.

Lemma prompt_returns_nonempty_content_witness :
  handler "key" (prompt_call hello) (completion_world (completion (Some "Hello!")))
  = (text_result "Hello!",
     requested COMPLETIONS_URL (completion_options "key" hello)
       (completion_world (completion (Some "Hello!")))).
Proof.
  destruct hello_valid as [Hm Hp].
  refine (proj1 (@prompt_returns_nonempty_content "key" hello
                   (completion_world (completion (Some "Hello!"))) _
                   (reply 200 "OK" None (Some (completion (Some "Hello!"))))
                   (completion (Some "Hello!")) Hm Hp _ _ _) "Hello!" _ _).
  - reflexivity.
  - reflexivity.
  - reflexivity.
  - reflexivity.
  - discriminate.
Defined.

(** C10.  For a validated [prompt] call whose request ends with a 2xx
    response, a first-choice content that is present but equal to the empty
    string fails the truthiness test just as a missing one does, and the
    result is the error "Invalid response from OpenRouter: Missing
    content" instead of an empty text. *)
Theorem prompt_empty_content_is_error (key : string) (a : Arguments)
    (w w' : World) (response : Response) (json : OpenRouterResponse) :
  ~ rejected (modelId a) 255 ->
  ~ rejected (prompt a) 15000 ->
  fetchWithRetry COMPLETIONS_URL (completion_options key a) default_retries w
    = (Normal response, w') ->
  ok response = true ->
  body response = Some json ->
  first_content json = Some "" ->
  present (first_content json) = false
  /\ handler key (prompt_call a) w
     = ({| isError := true;
           result_content :=
             [{| type := "text";
                 text := "Error: Invalid response from OpenRouter: Missing content" |}] |},
        w').
Proof.
  intros Hm Hp Hfetch Hok Hbody Hc. split.
  - now rewrite Hc.
  - exact (@handler_2xx_falsy key a w w' response json Hm Hp Hfetch Hok Hbody (or_intror Hc)).
Qed.

Lemma prompt_empty_content_is_error_witness :
  first_content (completion (Some "")) = Some ""
  /\ handler "key" (prompt_call hello) (completion_world (completion (Some "")))
     = ({| isError := true;
           result_content :=
             [{| type := "text";
                 text := "Error: Invalid response from OpenRouter: Missing content" |}] |},
        requested COMPLETIONS_URL (completion_options "key" hello)
          (completion_world (completion (Some "")))).
Proof.
  destruct hello_valid as [Hm Hp].
  split; [reflexivity |].
  refine (proj2 (@prompt_empty_content_is_error "key" hello
                   (completion_world (completion (Some ""))) _
                   (reply 200 "OK" None (Some (completion (Some ""))))
                   (completion (Some "")) Hm Hp _ _ _ _)); reflexivity.
Defined.

(** ** The dispatch boundary *)

(** The [catch] clause, for any body: this is the boundary shared by all
    revisions of the handler. *)
Lemma catch_to_result_throw (body : Js CallToolResult) (w w' : World)
    (e : JsError) :
  body w = (Throw e, w') ->
  catch_to_result body w = (error_result e, w').
Proof. intros H. unfold catch_to_result. now rewrite H. Qed.

Lemma catch_to_result_normal (body : Js CallToolResult) (w w' : World)
    (r : CallToolResult) :
  body w = (Normal r, w') ->
  catch_to_result body w = (r, w').
Proof. intros H. unfold catch_to_result. now rewrite H. Qed.

Lemma list_models_normal (args : option Arguments) (w w' : World)
    (r : CallToolResult) :
  list_models args w = (Normal r, w') -> exists t, r = text_result t.
Proof.
  unfold list_models, bind.
  destruct (load_models args w) as [[models|e] w1]; [| discriminate].
  cbn [ret]. intros H. injection H as <- _. now eexists.
Qed.

Lemma send_prompt_normal (key : string) (args : option Arguments) (w w' : World)
    (r : CallToolResult) :
  send_prompt key args w = (Normal r, w') -> exists t, r = text_result t.
Proof.
  unfold send_prompt. destruct args as [a|]; [| discriminate].
  unfold bind.
  destruct (validateInput (modelId a) (prompt a) w) as [[[]|e] w1];
    [| discriminate].
  destruct (fetchWithRetry _ _ _ w1) as [[response|e] w2]; [| discriminate].
  destruct (negb (ok response)).
  - cbv zeta. destruct (try_catch _ _ w2) as [[msg|e] w3]; discriminate.
  - unfold response_json. destruct (body response) as [json|]; [| discriminate].
    cbn [ret]. destruct (negb (present (first_content json))); [discriminate |].
    intros H. injection H as <- _. now eexists.
Qed.

Lemma dispatch_unknown (key : string) (request : CallToolRequest) (w : World) :
  tool request <> "list_models" ->
  tool request <> "prompt" ->
  dispatch key request w = (Throw (Error ("Unknown tool: " ++ tool request)), w).
Proof.
  intros H1 H2. unfold dispatch.
  apply String.eqb_neq in H1, H2. now rewrite H1, H2.
Qed.

Lemma dispatch_normal (key : string) (request : CallToolRequest) (w w' : World)
    (r : CallToolResult) :
  dispatch key request w = (Normal r, w') -> exists t, r = text_result t.
Proof.
  unfold dispatch.
  destruct (String.eqb (tool request) "list_models");
    [apply list_models_normal |].
  destruct (String.eqb (tool request) "prompt");
    [apply send_prompt_normal | discriminate].
Qed.

(** C8.  The handler is a total function from requests to results.  Its
    result always holds exactly one text item; a failure of the dispatched
    operation becomes a result flagged [isError] whose text is "Error: "
    followed by the message of the error thrown, while a success is passed
    through unflagged; and a tool name other than [list_models] and
    [prompt] gives "Error: Unknown tool: " followed by that name, with
    nothing else done. *)
Theorem handler_catches_everything (key : string) (request : CallToolRequest)
    (w : World) :
  (exists t, result_content (fst (handler key request w))
             = [{| type := "text"; text := t |}])
  /\ (forall e w',
        dispatch key request w = (Throw e, w') ->
        handler key request w
        = ({| isError := true;
              result_content :=
                [{| type := "text"; text := "Error: " ++ err_message e |}] |},
           w'))
  /\ (forall r w',
        dispatch key request w = (Normal r, w') ->
        handler key request w = (r, w') /\ isError r = false)
  /\ (tool request <> "list_models" -> tool request <> "prompt" ->
      handler key request w
      = ({| isError := true;
            result_content :=
              [{| type := "text";
                  text := "Error: " ++ "Unknown tool: " ++ tool request |}] |},
         w)).
Proof.
  split; [| split; [| split]].
  - unfold handler, catch_to_result.
    destruct (dispatch key request w) as [[r|e] w'] eqn:Hd.
    + destruct (dispatch_normal _ _ _ Hd) as [t ->]. now exists t.
    + now eexists.
  - intros e w' Hd. unfold handler. now rewrite (catch_to_result_throw _ _ Hd).
  - intros r w' Hd. unfold handler. rewrite (catch_to_result_normal _ _ Hd).
    split; [reflexivity |].
    now destruct (dispatch_normal _ _ _ Hd) as [t ->].
  - intros H1 H2. unfold handler.
    now rewrite (catch_to_result_throw _ _ (@dispatch_unknown key request w H1 H2)).
Qed.

Lemma handler_catches_everything_witness :
  handler "key" {| tool := "summarize"; arguments := None |} rate_limited_world
  = ({| isError := true;
        result_content :=
          [{| type := "text"; text := "Error: Unknown tool: summarize" |}] |},
     rate_limited_world).
Proof.
  destruct (handler_catches_everything "key"
              {| tool := "summarize"; arguments := None |} rate_limited_world)
    as (_ & _ & _ & H).
  apply H; discriminate.
Defined.

(** * Further properties *)

Unset Implicit Arguments.

(** ** Cache write and the two cache readers *)

(** X1.  Writing the cache never fails the caller.  When the write is
    refused, the error is logged after the attempt and the disk is left as it
    was; when it goes through, the file holds the serialised list and its
    modification time is the current clock. *)
Theorem setCachedModels_swallows_failure (models : list OpenRouterModel)
    (w : World) :
  fst (setCachedModels models w) = Normal tt
  /\ (forall c, write_fault (disk w) = Some c ->
        disk (snd (setCachedModels models w)) = disk w
        /\ trace (snd (setCachedModels models w))
           = (trace w ++ [EvWriteFile (Serialized models);
                          EvLog "Cache write error:" (SystemError c)])%list)
  /\ (write_fault (disk w) = None ->
        cache_file (disk (snd (setCachedModels models w)))
          = FsOk {| mtimeMs := clock w; contents := FsOk (Serialized models) |}
        /\ trace (snd (setCachedModels models w))
           = (trace w ++ [EvWriteFile (Serialized models)])%list).
Proof.
  split; [apply setCachedModels_normal |]. split.
  - intros c Hc. run. rewrite Hc. js_cbn. split.
    + now destruct (disk w).
    + now rewrite <- app_assoc.
  - intros Hc. run. rewrite Hc. js_cbn. split; reflexivity.
Qed.

Lemma setCachedModels_swallows_failure_witness :
  let w := world_of read_only_disk 0 (always (reply 200 "OK" None None)) in
  fst (setCachedModels sample_models w) = Normal tt
  /\ disk (snd (setCachedModels sample_models w)) = disk w.
Proof.
  intros w.
  destruct (setCachedModels_swallows_failure sample_models w) as (Hn & Hf & _).
  split; [exact Hn |]. now destruct (Hf "EROFS" eq_refl).
Defined.

Lemma setCachedModels_written (models : list OpenRouterModel) (w : World) :
  write_fault (disk w) = None ->
  cache_file (disk (snd (setCachedModels models w)))
  = FsOk {| mtimeMs := clock w; contents := FsOk (Serialized models) |}.
Proof. intros Hc. run. rewrite Hc. reflexivity. Qed.

(** X2.  Round trip through the cache file.  After a write that went
    through, a read from any later world with the same disk answers the list
    just written as long as less than 300 seconds have passed on the clock,
    whatever the file held before; from 300 seconds on it is a miss. *)
Theorem cache_write_then_read (models : list OpenRouterModel) (w w2 : World) :
  write_fault (disk w) = None ->
  disk w2 = disk (snd (setCachedModels models w)) ->
  (clock w2 - clock w < 300 * 1000 ->
   getCachedModels w2 = (Normal (Some models), emit EvReadFile (emit EvStat w2)))
  /\ (300 * 1000 <= clock w2 - clock w ->
      getCachedModels w2 = (Normal None, emit EvStat w2)).
Proof.
  intros Hfault Hdisk.
  pose proof (setCachedModels_written models w Hfault) as Hfile.
  rewrite <- Hdisk in Hfile. split; intros Hage.
  - now apply (getCachedModels_fresh_parsed w2 Hfile Hage eq_refl).
  - now apply (getCachedModels_stale w2 Hfile).
Qed.

Lemma cache_write_then_read_witness :
  let w := stale_corrupt_world in
  let w2 := advance 299999 (snd (setCachedModels sample_models w)) in
  fst (getCachedModels w2) = Normal (Some sample_models).
Proof.
  intros w w2.
  destruct (@cache_write_then_read sample_models w w2 eq_refl eq_refl) as (H & _).
  rewrite H; [reflexivity | cbn; lia].
Defined.

(** X3.  The synchronous reader of the earlier revision gives the same
    answer as the asynchronous one in every world, but it never changes the
    disk and never attempts an unlink: a corrupt file stays where it is. *)
Theorem sync_cache_read_agrees (w : World) :
  fst (SyncCache.getCachedModels w) = fst (getCachedModels w)
  /\ disk (snd (SyncCache.getCachedModels w)) = disk w
  /\ exists added,
       trace (snd (SyncCache.getCachedModels w)) = (trace w ++ added)%list
       /\ ~ In EvUnlink added.
Proof.
  unfold SyncCache.getCachedModels, SyncCache.fs_existsSync.
  destruct (cache_file (disk w)) as [f|c] eqn:Hf.
  - destruct (Z.ltb_spec (clock w - mtimeMs f) CACHE_TTL) as [Hage|Hage].
    + destruct (contents f) as [text|c] eqn:Hc.
      * destruct (parsed text) as [models|] eqn:Hp.
        -- rewrite (getCachedModels_fresh_parsed w Hf Hage Hc Hp).
           run. rewrite Hf. js_cbn. rewrite Hf. js_cbn.
           rewrite (fresh_test Hage). js_cbn. rewrite Hf, Hc. js_cbn. rewrite Hp.
           js_cbn. split; [reflexivity |]. split; [reflexivity |].
           exists [EvStat; EvStat; EvReadFile]. split.
           ++ now rewrite <- !app_assoc.
           ++ cbn. intuition discriminate.
        -- rewrite (getCachedModels_fresh_unparsed w Hf Hage Hc Hp).
           run. rewrite Hf. js_cbn. rewrite Hf. js_cbn.
           rewrite (fresh_test Hage). js_cbn. rewrite Hf, Hc. js_cbn. rewrite Hp.
           js_cbn. split; [reflexivity |]. split; [reflexivity |].
           eexists [EvStat; EvStat; EvReadFile; EvLog _ _]. split.
           ++ now rewrite <- !app_assoc.
           ++ cbn. intuition discriminate.
      * rewrite (getCachedModels_fresh_unreadable w Hf Hage Hc).
        run. rewrite Hf. js_cbn. rewrite Hf. js_cbn.
        rewrite (fresh_test Hage). js_cbn. rewrite Hf, Hc. js_cbn.
        split; [reflexivity |]. split; [reflexivity |].
        eexists [EvStat; EvStat; EvReadFile; EvLog _ _]. split.
        -- now rewrite <- !app_assoc.
        -- cbn. intuition discriminate.
    + rewrite (getCachedModels_stale w Hf Hage).
      run. rewrite Hf. js_cbn. rewrite Hf. js_cbn.
      rewrite (stale_test Hage). js_cbn.
      split; [reflexivity |]. split; [reflexivity |].
      exists [EvStat; EvStat]. split.
      * now rewrite <- !app_assoc.
      * cbn. intuition discriminate.
  - rewrite (getCachedModels_stat_fails w Hf).
    run. rewrite Hf. js_cbn.
    split; [reflexivity |]. split; [reflexivity |].
    exists [EvStat]. split; [reflexivity |]. cbn. intuition discriminate.
Qed.

(** ** More on the retry loop *)

Lemma attempt_once_continue (u : string) (options : RequestInit)
    (retries attempt : nat) (w w1 : World) :
  attempt_once u options retries attempt w = (Normal Continue, w1) ->
  exists r, network w (sent w) = Responds r /\ 500 <= status r
            /\ (attempt < retries)%nat
            /\ w1 = paused attempt (requested u options w).
Proof.
  intros H. destruct (network w (sent w)) as [r|e] eqn:Hnet.
  - destruct (Z.eq_dec (status r) 429) as [Hs|Hs].
    + rewrite (attempt_once_429 u options retries attempt w Hnet Hs) in H.
      discriminate H.
    + destruct (Z_lt_le_dec (status r) 500) as [Hlo|Hhi].
      * rewrite (attempt_once_return u options (retries := retries)
                   (attempt := attempt) w Hnet Hs (or_introl Hlo)) in H.
        discriminate H.
      * destruct (Nat.ltb_spec attempt retries) as [Hlt|Hge].
        -- rewrite (attempt_once_retry u options w Hnet Hhi Hlt) in H.
           injection H as <-. now exists r.
        -- rewrite (attempt_once_return u options w Hnet Hs (or_intror Hge)) in H.
           discriminate H.
  - rewrite (attempt_once_rejected u options retries attempt w Hnet) in H.
    discriminate H.
Qed.

Lemma attempt_once_stops (u : string) (options : RequestInit)
    (retries attempt : nat) (w : World) :
  (exists w1, attempt_once u options retries attempt w = (Normal Continue, w1))
  \/ (exists c, attempt_once u options retries attempt w
                = (c, requested u options w)
                /\ c <> Normal Continue).
Proof.
  destruct (network w (sent w)) as [r|e] eqn:Hnet.
  - destruct (Z.eq_dec (status r) 429) as [Hs|Hs].
    + right. eexists. split;
        [apply (attempt_once_429 u options retries attempt w Hnet Hs) | discriminate].
    + destruct (Z_lt_le_dec (status r) 500) as [Hlo|Hhi].
      * right. eexists. split;
          [apply (attempt_once_return u options w Hnet Hs (or_introl Hlo))
          | discriminate].
      * destruct (Nat.ltb_spec attempt retries) as [Hlt|Hge].
        -- left. eexists.
           apply (attempt_once_retry u options w Hnet Hhi Hlt).
        -- right. eexists. split;
             [apply (attempt_once_return u options w Hnet Hs (or_intror Hge))
             | discriminate].
  - right. eexists. split;
      [apply (attempt_once_rejected u options retries attempt w Hnet) | discriminate].
Qed.

Lemma pow2_S (a : nat) : 2 ^ Z.of_nat (S a) = 2 * 2 ^ Z.of_nat a.
Proof. rewrite Nat2Z.inj_succ, Z.pow_succ_r by lia. reflexivity. Qed.

Lemma fetch_loop_recovers (u : string) (options : RequestInit) (retries : nat)
    (rs : nat -> Response) :
  forall k attempt remaining w,
    (attempt + k <= retries)%nat ->
    (k < remaining)%nat ->
    (forall i, (i < k)%nat ->
       network w (i + sent w) = Responds (rs (i + attempt)%nat) /\
       500 <= status (rs (i + attempt)%nat)) ->
    network w (k + sent w) = Responds (rs (k + attempt)%nat) ->
    status (rs (k + attempt)%nat) < 500 ->
    status (rs (k + attempt)%nat) <> 429 ->
    exists w',
      fetch_loop remaining u options retries attempt w
        = (Normal (rs (k + attempt)%nat), w') /\
      sent w' = (S k + sent w)%nat /\
      trace w' = (trace w ++ retry_trace
                    {| url := u; init := with_default_headers options |}
                    attempt k)%list /\
      clock w' = clock w
                 + (2 ^ Z.of_nat (attempt + k) - 2 ^ Z.of_nat attempt) * 1000.
Proof.
  induction k as [|k IH]; intros attempt remaining w Hle Hrem Hnet Hlast Hlo Hne.
  - destruct remaining as [|n]; [lia |].
    cbn [fetch_loop]. unfold bind. cbn in Hlast, Hlo, Hne.
    rewrite (attempt_once_return u options (retries := retries) w Hlast Hne
               (or_introl Hlo)).
    eexists. split; [reflexivity |]. split; [reflexivity |].
    split; [reflexivity |]. cbn [requested count_request emit clock].
    rewrite Nat.add_0_r. lia.
  - destruct remaining as [|n]; [lia |].
    destruct (Hnet 0%nat ltac:(lia)) as [H0 Hs]. cbn in H0, Hs.
    cbn [fetch_loop]. unfold bind.
    rewrite (attempt_once_retry u options (retries := retries) w H0 Hs)
      by lia.
    destruct (IH (S attempt) n (paused attempt (requested u options w)))
      as (w' & Hrun & Hsent & Htrace & Hclock).
    + lia.
    + lia.
    + intros i Hi.
      cbn [paused requested network sent advance emit count_request].
      specialize (Hnet (S i) ltac:(lia)).
      replace (i + S (sent w))%nat with (S i + sent w)%nat by lia.
      replace (i + S attempt)%nat with (S i + attempt)%nat by lia.
      exact Hnet.
    + cbn [paused requested network sent advance emit count_request].
      replace (k + S (sent w))%nat with (S k + sent w)%nat by lia.
      replace (k + S attempt)%nat with (S k + attempt)%nat by lia.
      exact Hlast.
    + now replace (k + S attempt)%nat with (S k + attempt)%nat by lia.
    + now replace (k + S attempt)%nat with (S k + attempt)%nat by lia.
    + replace (k + S attempt)%nat with (S k + attempt)%nat in Hrun by lia.
      exists w'. split; [exact Hrun |]. split; [| split].
      * rewrite Hsent. cbn. lia.
      * rewrite Htrace. cbn. rewrite <- !app_assoc. reflexivity.
      * rewrite Hclock.
        cbn [paused requested clock advance emit count_request].
        unfold backoff.
        replace (S attempt + k)%nat with (attempt + S k)%nat by lia.
        rewrite (pow2_S attempt). lia.
Qed.

(** X4.  Recovery.  If the first [k] responses ([k] at most [retries]) have
    a status of 500 or more and the next one has a status below 500 other
    than 429, that response is returned after exactly [k + 1] requests, with
    the pauses 1000, 2000, ... between them and [(2^k - 1) * 1000] ms slept
    in total.  With [k = 0] this says that a 2xx, 3xx or 4xx answer is
    returned at once, without any pause. *)
Theorem fetchWithRetry_recovers (u : string) (options : RequestInit)
    (retries k : nat) (rs : nat -> Response) (w : World) :
  (k <= retries)%nat ->
  (forall i, (i < k)%nat ->
     network w (i + sent w) = Responds (rs i) /\ 500 <= status (rs i)) ->
  network w (k + sent w) = Responds (rs k) ->
  status (rs k) < 500 ->
  status (rs k) <> 429 ->
  exists w',
    fetchWithRetry u options retries w = (Normal (rs k), w') /\
    sent w' = (S k + sent w)%nat /\
    trace w' = (trace w ++ retry_trace
                  {| url := u; init := with_default_headers options |} 0 k)%list /\
    clock w' = clock w + (2 ^ Z.of_nat k - 1) * 1000.
Proof.
  intros Hk Hnet Hlast Hlo Hne. unfold fetchWithRetry.
  assert (Hnet' : forall i, (i < k)%nat ->
            network w (i + sent w) = Responds (rs (i + 0)%nat) /\
            500 <= status (rs (i + 0)%nat)).
  { intros i Hi. rewrite Nat.add_0_r. now apply Hnet. }
  destruct (@fetch_loop_recovers u options retries rs k 0%nat (S retries) w)
    as (w' & Hrun & Hsent & Htrace & Hclock).
  all: rewrite ?Nat.add_0_r; try assumption; try lia.
  exists w'. rewrite Nat.add_0_r in Hrun. repeat split; assumption.
Qed.

Lemma fetchWithRetry_recovers_witness :
  exists w',
    fetchWithRetry MODELS_URL no_options 2 (world_of empty_disk 0 flaky)
    = (Normal (reply 200 "OK" None None), w')
    /\ sent w' = 2%nat
    /\ clock w' = 1000.
Proof.
  destruct (@fetchWithRetry_recovers MODELS_URL no_options 2 1
              (fun i => match i with
                        | O => reply 503 "Service Unavailable" None None
                        | _ => reply 200 "OK" None None
                        end)
              (world_of empty_disk 0 flaky))
    as (w' & Hrun & Hsent & _ & Hclock).
  - lia.
  - intros i Hi. assert (i = 0%nat) by lia. subst i.
    split; [reflexivity | cbn; lia].
  - reflexivity.
  - cbn. lia.
  - cbn. lia.
  - exists w'. split; [exact Hrun |]. split; [exact Hsent | exact Hclock].
Defined.

Lemma attempt_once_returns (u : string) (options : RequestInit)
    (retries attempt : nat) (w w1 : World) (r : Response) :
  attempt_once u options retries attempt w = (Normal (Return r), w1) ->
  network w (sent w) = Responds r /\ status r <> 429
  /\ (status r < 500 \/ (retries <= attempt)%nat)
  /\ w1 = requested u options w.
Proof.
  intros H. destruct (network w (sent w)) as [r0|e] eqn:Hnet.
  - destruct (Z.eq_dec (status r0) 429) as [Hs|Hs].
    + rewrite (attempt_once_429 u options retries attempt w Hnet Hs) in H.
      discriminate H.
    + destruct (Z_lt_le_dec (status r0) 500) as [Hlo|Hhi].
      * rewrite (attempt_once_return u options (retries := retries)
                   (attempt := attempt) w Hnet Hs (or_introl Hlo)) in H.
        injection H as <- <-. auto.
      * destruct (Nat.ltb_spec attempt retries) as [Hlt|Hge].
        -- rewrite (attempt_once_retry u options w Hnet Hhi Hlt) in H.
           discriminate H.
        -- rewrite (attempt_once_return u options w Hnet Hs (or_intror Hge)) in H.
           injection H as <- <-. auto.
  - rewrite (attempt_once_rejected u options retries attempt w Hnet) in H.
    discriminate H.
Qed.

Lemma attempt_once_throws (u : string) (options : RequestInit)
    (retries attempt : nat) (w w1 : World) (e : JsError) :
  attempt_once u options retries attempt w = (Throw e, w1) ->
  ((exists e', network w (sent w) = Rejects e')
   \/ (exists r, network w (sent w) = Responds r /\ status r = 429))
  /\ w1 = requested u options w.
Proof.
  intros H. destruct (network w (sent w)) as [r0|e0] eqn:Hnet.
  - destruct (Z.eq_dec (status r0) 429) as [Hs|Hs].
    + rewrite (attempt_once_429 u options retries attempt w Hnet Hs) in H.
      injection H as _ <-. split; [right; now exists r0 | reflexivity].
    + destruct (Z_lt_le_dec (status r0) 500) as [Hlo|Hhi].
      * rewrite (attempt_once_return u options (retries := retries)
                   (attempt := attempt) w Hnet Hs (or_introl Hlo)) in H.
        discriminate H.
      * destruct (Nat.ltb_spec attempt retries) as [Hlt|Hge].
        -- rewrite (attempt_once_retry u options w Hnet Hhi Hlt) in H.
           discriminate H.
        -- rewrite (attempt_once_return u options w Hnet Hs (or_intror Hge)) in H.
           discriminate H.
  - rewrite (attempt_once_rejected u options retries attempt w Hnet) in H.
    injection H as _ <-. split; [left; now exists e0 | reflexivity].
Qed.

Lemma fetch_loop_outcome (u : string) (options : RequestInit) (retries : nat) :
  forall remaining attempt w,
    (attempt + remaining = S retries)%nat ->
    (0 < remaining)%nat ->
    let w' := snd (fetch_loop remaining u options retries attempt w) in
    (sent w < sent w')%nat
    /\ match fst (fetch_loop remaining u options retries attempt w) with
       | Normal r =>
           network w (sent w' - 1) = Responds r /\ status r <> 429
           /\ (500 <= status r -> sent w' = (remaining + sent w)%nat)
       | Throw e =>
           (exists e', network w (sent w' - 1) = Rejects e')
           \/ (exists r, network w (sent w' - 1) = Responds r /\ status r = 429)
       end.
Proof.
  induction remaining as [|n IH]; intros attempt w Hsum Hpos; [lia |].
  cbn zeta. cbn [fetch_loop]. unfold bind.
  destruct (attempt_once u options retries attempt w) as [[step|e] w1] eqn:Hstep.
  - destruct step as [|r].
    + apply attempt_once_continue in Hstep.
      destruct Hstep as (r & Hnet & Hs & Hlt & ->).
      specialize (IH (S attempt) (paused attempt (requested u options w))
                     ltac:(lia) ltac:(lia)).
      cbn zeta in IH.
      cbn [paused requested network sent advance emit count_request] in IH.
      destruct IH as (Hsent & Hres). split; [lia |].
      destruct (fst (fetch_loop n u options retries (S attempt) _)) as [r'|e'].
      * destruct Hres as (Hlast & Hne & Hall). split; [exact Hlast |].
        split; [exact Hne |]. intros H5. rewrite (Hall H5). lia.
      * exact Hres.
    + apply attempt_once_returns in Hstep.
      destruct Hstep as (Hnet & Hne & Hor & ->). cbn [fst snd ret].
      cbn [requested sent count_request emit]. split; [lia |].
      replace (S (sent w) - 1)%nat with (sent w) by lia.
      split; [exact Hnet |]. split; [exact Hne |].
      intros H5. destruct Hor as [Hlo | Hge]; lia.
  - apply attempt_once_throws in Hstep. destruct Hstep as (Hwhy & ->).
    cbn [fst snd]. cbn [requested sent count_request emit]. split; [lia |].
    replace (S (sent w) - 1)%nat with (sent w) by lia. exact Hwhy.
Qed.

(** X5.  What a call can end with.  A response handed back to the caller is
    the answer to the last request sent; it never has status 429, and it has
    a status of 500 or more only when all [retries + 1] requests have been
    used.  A call ends in an exception only when its last request was
    rejected by the network or answered with 429: the loop never runs out
    without a result, so the closing "Fetch failed after retries" is never
    what the caller sees of it. *)
Theorem fetchWithRetry_outcome (u : string) (options : RequestInit)
    (retries : nat) (w : World) :
  let w' := snd (fetchWithRetry u options retries w) in
  match fst (fetchWithRetry u options retries w) with
  | Normal r =>
      network w (sent w' - 1) = Responds r /\ status r <> 429
      /\ (500 <= status r -> sent w' = (S retries + sent w)%nat)
  | Throw e =>
      (exists e', network w (sent w' - 1) = Rejects e')
      \/ (exists r, network w (sent w' - 1) = Responds r /\ status r = 429)
  end.
Proof.
  unfold fetchWithRetry.
  exact (proj2 (fetch_loop_outcome u options retries (S retries) 0 w
                  eq_refl (Nat.lt_0_succ _))).
Qed.

(** X6.  A timed-out attempt is not retried.  When a request is rejected
    with an [AbortError], which is what the 30 second abort timer produces,
    the call ends there with that same error: one request, no pause,
    whatever the number of retries still allowed. *)
Theorem fetchWithRetry_abort_not_retried (u : string) (options : RequestInit)
    (retries : nat) (w : World) (e : JsError) :
  network w (sent w) = Rejects e ->
  err_name e = "AbortError" ->
  fetchWithRetry u options retries w = (Throw e, requested u options w).
Proof.
  intros Hnet Hname. unfold fetchWithRetry. cbn [fetch_loop]. unfold bind.
  rewrite (attempt_once_rejected u options retries 0 w Hnet), Hname.
  cbn [String.eqb]. rewrite orb_true_r. reflexivity.
Qed.

Lemma fetchWithRetry_abort_not_retried_witness :
  fetchWithRetry COMPLETIONS_URL no_options 2
    (world_of empty_disk 0 (fun _ => Rejects AbortError))
  = (Throw AbortError,
     requested COMPLETIONS_URL no_options
       (world_of empty_disk 0 (fun _ => Rejects AbortError))).
Proof.
  apply fetchWithRetry_abort_not_retried; reflexivity.
Defined.

Lemma fetch_loop_clock (u : string) (options : RequestInit) (retries : nat) :
  forall remaining attempt w,
    (attempt + remaining = S retries)%nat ->
    (0 < remaining)%nat ->
    let w' := snd (fetch_loop remaining u options retries attempt w) in
    clock w <= clock w'
    <= clock w + (2 ^ Z.of_nat retries - 2 ^ Z.of_nat attempt) * 1000.
Proof.
  induction remaining as [|n IH]; intros attempt w Hsum Hpos; [lia |].
  cbn zeta. cbn [fetch_loop]. unfold bind.
  assert (Hmono : 2 ^ Z.of_nat attempt <= 2 ^ Z.of_nat retries)
    by (apply Z.pow_le_mono_r; lia).
  destruct (attempt_once_stops u options retries attempt w)
    as [(w1 & Hstep) | (c & Hstep & Hc)].
  - rewrite Hstep. apply attempt_once_continue in Hstep.
    destruct Hstep as (r & _ & _ & Hlt & ->).
    specialize (IH (S attempt) (paused attempt (requested u options w))
                   ltac:(lia) ltac:(lia)).
    cbn zeta in IH. cbn [paused requested clock advance emit count_request] in IH.
    unfold backoff in IH. rewrite (pow2_S attempt) in IH. lia.
  - rewrite Hstep. destruct c as [[|r]|e]; [contradiction | |];
      cbn [snd ret requested clock count_request emit]; lia.
Qed.

(** X7.  The pauses of one call are bounded, whatever the network does:
    the clock advances by at most [(2^retries - 1) * 1000] ms of back-off,
    that is 3000 ms for the default of two retries, and it never goes
    back. *)
Theorem fetchWithRetry_backoff_bound (u : string) (options : RequestInit)
    (retries : nat) (w : World) :
  clock w <= clock (snd (fetchWithRetry u options retries w))
  <= clock w + (2 ^ Z.of_nat retries - 1) * 1000.
Proof.
  unfold fetchWithRetry.
  pose proof (fetch_loop_clock u options retries (S retries) 0 w eq_refl
                (Nat.lt_0_succ _)) as H.
  cbn zeta in H. cbn [Z.of_nat] in H. rewrite Z.pow_0_r in H. exact H.
Qed.

(** ** Outbound headers *)




(** ** What a call sends *)

Lemma attempt_once_world (u : string) (options : RequestInit)
    (retries attempt : nat) (w : World) :
  let w1 := snd (attempt_once u options retries attempt w) in
  disk w1 = disk w
  /\ network w1 = network w
  /\ exists added,
       trace w1 = (trace w ++ EvFetch {| url := u;
                                         init := with_default_headers options |}
                           :: added)%list
       /\ only_requests {| url := u; init := with_default_headers options |} added.
Proof.
  cbn zeta.
  destruct (attempt_once_stops u options retries attempt w)
    as [(w1 & Hstep) | (c & Hstep & _)].
  - rewrite Hstep. apply attempt_once_continue in Hstep.
    destruct Hstep as (r & _ & _ & _ & ->). cbn [snd].
    split; [reflexivity |]. split; [reflexivity |].
    exists [EvSleep (backoff attempt)]. split.
    + cbn. now rewrite <- app_assoc.
    + constructor; [right; now eexists | constructor].
  - rewrite Hstep. cbn [snd].
    split; [reflexivity |]. split; [reflexivity |].
    exists []. split; [reflexivity | constructor].
Qed.

Lemma fetch_loop_world (u : string) (options : RequestInit) (retries : nat) :
  forall remaining attempt w,
    let w' := snd (fetch_loop remaining u options retries attempt w) in
    disk w' = disk w
    /\ network w' = network w
    /\ exists added,
         trace w' = (trace w ++ added)%list
         /\ only_requests {| url := u; init := with_default_headers options |} added
         /\ ((0 < remaining)%nat ->
             exists rest, added = EvFetch {| url := u;
                                             init := with_default_headers options |}
                                  :: rest).
Proof.
  induction remaining as [|n IH]; intros attempt w; cbn zeta.
  - cbn. split; [reflexivity |]. split; [reflexivity |].
    exists []. split; [now rewrite app_nil_r |]. split; [constructor | lia].
  - cbn [fetch_loop]. unfold bind.
    pose proof (attempt_once_world u options retries attempt w) as Hw.
    cbn zeta in Hw.
    destruct (attempt_once u options retries attempt w) as [[step|e] w1].
    + cbn [snd] in Hw. destruct Hw as (Hd & Hn & added & Ht & Hreq).
      destruct step as [|r].
      * specialize (IH (S attempt) w1). cbn zeta in IH.
        destruct IH as (Hd' & Hn' & added' & Ht' & Hreq' & _).
        split; [congruence |]. split; [congruence |].
        exists (EvFetch {| url := u; init := with_default_headers options |}
                  :: added ++ added')%list.
        split; [| split].
        -- rewrite Ht', Ht, <- app_assoc. reflexivity.
        -- constructor; [now left |]. apply Forall_app. now split.
        -- intros _. now eexists.
      * cbn [snd ret]. split; [exact Hd |]. split; [exact Hn |].
        eexists. split; [exact Ht |]. split.
        -- constructor; [now left | exact Hreq].
        -- intros _. now eexists.
    + cbn [snd] in *. destruct Hw as (Hd & Hn & added & Ht & Hreq).
      split; [exact Hd |]. split; [exact Hn |].
      eexists. split; [exact Ht |]. split.
      * constructor; [now left | exact Hreq].
      * intros _. now eexists.
Qed.

Lemma fetchWithRetry_world (u : string) (options : RequestInit) (retries : nat)
    (w : World) :
  let w' := snd (fetchWithRetry u options retries w) in
  disk w' = disk w
  /\ exists rest,
       trace w' = (trace w ++ EvFetch {| url := u;
                                         init := with_default_headers options |}
                           :: rest)%list
       /\ only_requests {| url := u; init := with_default_headers options |} rest.
Proof.
  cbn zeta. unfold fetchWithRetry.
  destruct (fetch_loop_world u options retries (S retries) 0 w)
    as (Hd & _ & added & Ht & Hreq & Hfirst).
  split; [exact Hd |].
  destruct (Hfirst (Nat.lt_0_succ _)) as (rest & ->).
  exists rest. split; [exact Ht |]. now inversion Hreq.
Qed.

Lemma send_prompt_world (key : string) (a : Arguments) (w : World) :
  ~ rejected (modelId a) 255 ->
  ~ rejected (prompt a) 15000 ->
  snd (send_prompt key (Some a) w)
  = snd (fetchWithRetry COMPLETIONS_URL (completion_options key a)
           default_retries w).
Proof.
  intros Hm Hp. unfold send_prompt, bind. rewrite validateInput_unfold.
  destruct (fails_check (modelId a) 255) eqn:Hcm;
    [apply fails_check_iff in Hcm; contradiction |].
  destruct (fails_check (prompt a) 15000) eqn:Hcp;
    [apply fails_check_iff in Hcp; contradiction |].
  cbn [ret].
  destruct (fetchWithRetry _ _ _ w) as [[response|e] w1]; [| reflexivity].
  destruct (negb (ok response)).
  - unfold try_catch, response_json, bind.
    destruct (body response); reflexivity.
  - unfold response_json. destruct (body response) as [json|]; [| reflexivity].
    cbn [ret]. destruct (negb (present (first_content json))); reflexivity.
Qed.

(** X9.  What a [prompt] call puts on the wire.  For validated arguments,
    everything the call does is to send, once or again after a pause, one
    and the same POST request to the completions URL, whose body names the
    given model and carries the given prompt as its single "user" message,
    with the bearer key, the JSON content type and the two fixed headers.
    The cache file is neither read nor written. *)
Theorem prompt_request_shape (key : string) (a : Arguments) (w : World)
    (m p : string) :
  modelId a = JStr m ->
  prompt a = JStr p ->
  ~ rejected (modelId a) 255 ->
  ~ rejected (prompt a) 15000 ->
  let req :=
    {| url := "https://openrouter.ai/api/v1/chat/completions";
       init :=
         {| method := Some "POST";
            headers := [ ("HTTP-Referer", "https://geminicli.com");
                         ("X-Title", "Gemini CLI OpenRouter Extension");
                         ("Authorization", "Bearer " ++ key);
                         ("Content-Type", "application/json") ];
            init_body := Some {| model := m; messages := [("user", p)] |} |} |} in
  let w' := snd (handler key (prompt_call a) w) in
  disk w' = disk w
  /\ exists rest,
       trace w' = (trace w ++ EvFetch req :: rest)%list
       /\ only_requests req rest.
Proof.
  intros Hm Hp Hvm Hvp req w'.
  assert (Hw : w' = snd (fetchWithRetry COMPLETIONS_URL (completion_options key a)
                           default_retries w)).
  { subst w'. rewrite handler_prompt. unfold catch_to_result.
    rewrite <- (send_prompt_world key a w Hvm Hvp).
    destruct (send_prompt key (Some a) w) as [[r|e] w1]; reflexivity. }
  rewrite Hw.
  assert (Hreq : {| url := COMPLETIONS_URL;
                    init := with_default_headers (completion_options key a) |}
                 = req).
  { subst req. unfold completion_options, with_default_headers, COMPLETIONS_URL.
    cbn [method headers init_body]. rewrite Hm, Hp. reflexivity. }
  rewrite <- Hreq.
  apply (fetchWithRetry_world COMPLETIONS_URL (completion_options key a)
           default_retries w).
Qed.

Lemma prompt_request_shape_witness :
  exists rest,
    trace (snd (handler "sk-1" (prompt_call hello)
                  (completion_world (completion (Some "Hello!")))))
    = EvFetch
        {| url := "https://openrouter.ai/api/v1/chat/completions";
           init :=
             {| method := Some "POST";
                headers := [ ("HTTP-Referer", "https://geminicli.com");
                             ("X-Title", "Gemini CLI OpenRouter Extension");
                             ("Authorization", "Bearer sk-1");
                             ("Content-Type", "application/json") ];
                init_body := Some {| model := "openai/gpt-4o";
                                     messages := [("user", "Say hello")] |} |} |}
      :: rest.
Proof.
  destruct hello_valid as [Hvm Hvp].
  destruct (prompt_request_shape "sk-1" hello
              (completion_world (completion (Some "Hello!")))
              "openai/gpt-4o" "Say hello" eq_refl eq_refl Hvm Hvp)
    as (_ & rest & Ht & _).
  exists rest. exact Ht.
Defined.

(** ** Listing models: the network path *)

Lemma load_models_refresh (args : option Arguments) (w : World) :
  needs_fetch args w ->
  load_models args w = refresh (after_lookup args w).
Proof.
  intros Hneed. unfold load_models, after_lookup, bind at 1.
  destruct (truthy (arg args forceRefresh)) eqn:Hf; [reflexivity |].
  destruct Hneed as [H | H]; [congruence |].
  destruct (getCachedModels w) as [c w0]. cbn [fst snd] in *. now subst c.
Qed.

Lemma handler_list_models_run (key : string) (args : option Arguments)
    (w : World) :
  handler key (list_call args) w =
  match load_models args w with
  | (Normal models, w') => (text_result (render (apply_filters args models)), w')
  | (Throw e, w') => (error_result e, w')
  end.
Proof.
  rewrite handler_list_models. unfold catch_to_result, list_models, bind.
  destruct (load_models args w) as [[models|e] w']; reflexivity.
Qed.

(** X10.  A catalogue answer that is not 2xx.  When the listing has to go to
    the network and the response finally returned has a status outside
    200..299, the tool result is the error "OpenRouter API error: <status>
    <reason phrase>", and the cache file is left exactly as the lookup left
    it: nothing is written. *)
Theorem list_models_upstream_error (key : string) (args : option Arguments)
    (w w1 : World) (r : Response) :
  needs_fetch args w ->
  fetchWithRetry MODELS_URL no_options default_retries (after_lookup args w)
    = (Normal r, w1) ->
  ok r = false ->
  handler key (list_call args) w
    = ({| isError := true;
          result_content :=
            [{| type := "text";
                text := "Error: OpenRouter API error: " ++ show (status r)
                        ++ " " ++ statusText r |}] |},
       w1)
  /\ disk w1 = disk (after_lookup args w).
Proof.
  intros Hneed Hfetch Hok. split.
  - rewrite handler_list_models_run, (load_models_refresh args w Hneed).
    unfold refresh, bind. rewrite Hfetch, Hok. reflexivity.
  - pose proof (fetchWithRetry_world MODELS_URL no_options default_retries
                  (after_lookup args w)) as H.
    cbn zeta in H. rewrite Hfetch in H. now destruct H.
Qed.

Lemma list_models_upstream_error_witness :
  fst (handler "key" (list_call None)
         (world_of empty_disk 0 (always (reply 404 "Not Found" None None))))
  = {| isError := true;
       result_content :=
         [{| type := "text";
             text := "Error: OpenRouter API error: 404 Not Found" |}] |}.
Proof.
  destruct (list_models_upstream_error "key" None
              (world_of empty_disk 0 (always (reply 404 "Not Found" None None)))
              (requested MODELS_URL no_options
                 (after_lookup None
                    (world_of empty_disk 0
                       (always (reply 404 "Not Found" None None)))))
              (reply 404 "Not Found" None None)) as (H & _).
  - right. reflexivity.
  - reflexivity.
  - reflexivity.
  - rewrite H. reflexivity.
Defined.

Lemma served_from_cache (key : string) (args : option Arguments) (w : World)
    (f : CacheFile) (models : list OpenRouterModel) :
  truthy (arg args forceRefresh) = false ->
  cache_file (disk w) = FsOk f ->
  clock w - mtimeMs f < CACHE_TTL ->
  contents f = FsOk (Serialized models) ->
  handler key (list_call args) w
  = (text_result (render (apply_filters args models)),
     emit EvReadFile (emit EvStat w)).
Proof.
  intros Hforce Hf Hage Hc.
  rewrite handler_list_models_run. unfold load_models, bind. rewrite Hforce.
  now rewrite (getCachedModels_fresh_parsed w Hf Hage Hc eq_refl).
Qed.

(** X11.  Fetch, then serve from the cache.  When the listing goes to the
    network and gets a 2xx answer with a parsed body, the result is rendered
    from the body's [data] (an absent [data] counts as the empty list) and
    that list is written to the cache.  If the write goes through, every
    later call without [forceRefresh] that finds this disk less than 300
    seconds after the write is answered from the file: it renders the same
    list under its own filters and sends no request at all. *)
Theorem list_models_fetch_then_cached (key : string) (args : option Arguments)
    (w w1 : World) (r : Response) (json : OpenRouterResponse) :
  needs_fetch args w ->
  fetchWithRetry MODELS_URL no_options default_retries (after_lookup args w)
    = (Normal r, w1) ->
  ok r = true ->
  body r = Some json ->
  let models := match data json with Some d => d | None => [] end in
  handler key (list_call args) w
    = (text_result (render (apply_filters args models)),
       snd (setCachedModels models w1))
  /\ (write_fault (disk w1) = None ->
      forall args2 w2,
        disk w2 = disk (snd (setCachedModels models w1)) ->
        truthy (arg args2 forceRefresh) = false ->
        clock w2 - clock w1 < 300 * 1000 ->
        handler key (list_call args2) w2
        = (text_result (render (apply_filters args2 models)),
           emit EvReadFile (emit EvStat w2))).
Proof.
  intros Hneed Hfetch Hok Hbody models. split.
  - rewrite handler_list_models_run, (load_models_refresh args w Hneed).
    unfold refresh, bind. rewrite Hfetch, Hok. cbn [negb].
    unfold response_json. rewrite Hbody. cbn [ret]. fold models.
    pose proof (setCachedModels_normal models w1) as [Hn _].
    destruct (setCachedModels models w1) as [c w2]. cbn [fst snd] in *.
    now subst c.
  - intros Hfault args2 w2 Hdisk Hforce Hage.
    assert (Hfile : cache_file (disk w2)
                    = FsOk {| mtimeMs := clock w1;
                              contents := FsOk (Serialized models) |}).
    { rewrite Hdisk. unfold setCachedModels. run. rewrite Hfault. reflexivity. }
    now apply (served_from_cache key args2 w2 _ models Hforce Hfile).
Qed.

Lemma list_models_fetch_then_cached_witness :
  let w1 := requested MODELS_URL no_options (after_lookup None catalogue_world) in
  let w2 := advance 60000 (snd (setCachedModels sample_models w1)) in
  fst (handler "key" (list_call None) catalogue_world)
    = text_result (render sample_models)
  /\ handler "key" (list_call None) w2
     = (text_result (render sample_models), emit EvReadFile (emit EvStat w2)).
Proof.
  intros w1 w2.
  destruct (list_models_fetch_then_cached "key" None catalogue_world w1
              (reply 200 "OK" None (Some catalogue)) catalogue)
    as (Hfirst & Hnext).
  - right. reflexivity.
  - reflexivity.
  - reflexivity.
  - reflexivity.
  - split.
    + rewrite Hfirst. reflexivity.
    + apply (Hnext eq_refl None w2); [reflexivity | reflexivity | cbn; lia].
Defined.

(** X12.  A 2xx catalogue answer without a [data] field is taken for an
    empty catalogue: whatever the filters, the text is "No models found
    matching criteria.", and the empty list is what gets cached, so that
    later calls within 300 seconds repeat that answer without asking the
    network again. *)
Theorem list_models_missing_data (key : string) (args : option Arguments)
    (w w1 : World) (r : Response) (json : OpenRouterResponse) :
  needs_fetch args w ->
  fetchWithRetry MODELS_URL no_options default_retries (after_lookup args w)
    = (Normal r, w1) ->
  ok r = true ->
  body r = Some json ->
  data json = None ->
  handler key (list_call args) w
    = (text_result "No models found matching criteria.",
       snd (setCachedModels [] w1))
  /\ (write_fault (disk w1) = None ->
      forall args2 w2,
        disk w2 = disk (snd (setCachedModels [] w1)) ->
        truthy (arg args2 forceRefresh) = false ->
        clock w2 - clock w1 < 300 * 1000 ->
        handler key (list_call args2) w2
        = (text_result "No models found matching criteria.",
           emit EvReadFile (emit EvStat w2))).
Proof.
  intros Hneed Hfetch Hok Hbody Hdata.
  assert (Hempty : forall a, render (apply_filters a []) =
                             "No models found matching criteria.").
  { intros a. unfold apply_filters.
    destruct (truthy (arg a free)), (truthy (arg a query)); reflexivity. }
  split.
  - rewrite handler_list_models_run, (load_models_refresh args w Hneed).
    unfold refresh, bind. rewrite Hfetch, Hok. cbn [negb].
    unfold response_json. rewrite Hbody. cbn [ret]. rewrite Hdata.
    pose proof (setCachedModels_normal [] w1) as [Hn _].
    destruct (setCachedModels [] w1) as [c w2]. cbn [fst snd] in *.
    subst c. unfold ret. now rewrite Hempty.
  - intros Hfault args2 w2 Hdisk Hforce Hage.
    assert (Hfile : cache_file (disk w2)
                    = FsOk {| mtimeMs := clock w1;
                              contents := FsOk (Serialized []) |}).
    { rewrite Hdisk. unfold setCachedModels. run. rewrite Hfault. reflexivity. }
    rewrite (served_from_cache key args2 w2 _ [] Hforce Hfile);
      [now rewrite Hempty | exact Hage | reflexivity].
Qed.

Lemma list_models_missing_data_witness :
  fst (handler "key" (list_call (Some (listing_arguments JUndefined JUndefined
                                                      (JBool true))))
         (world_of empty_disk 0 (always (reply 200 "OK" None (Some no_data)))))
  = text_result "No models found matching criteria.".
Proof.
  destruct (list_models_missing_data "key"
              (Some (listing_arguments JUndefined JUndefined (JBool true)))
              (world_of empty_disk 0 (always (reply 200 "OK" None (Some no_data))))
              (requested MODELS_URL no_options
                 (world_of empty_disk 0
                    (always (reply 200 "OK" None (Some no_data)))))
              (reply 200 "OK" None (Some no_data)) no_data) as (H & _).
  - left. reflexivity.
  - reflexivity.
  - reflexivity.
  - reflexivity.
  - reflexivity.
  - rewrite H. reflexivity.
Defined.

Lemma grows_by_refl (P : Event -> Prop) (w : World) : grows_by P w w.
Proof. exists []. split; [now rewrite app_nil_r | constructor]. Qed.

Lemma grows_by_trans (P : Event -> Prop) (w1 w2 w3 : World) :
  grows_by P w1 w2 -> grows_by P w2 w3 -> grows_by P w1 w3.
Proof.
  intros (a1 & H1 & F1) (a2 & H2 & F2). exists (a1 ++ a2)%list. split.
  - now rewrite H2, H1, <- app_assoc.
  - apply Forall_app. now split.
Qed.

Lemma grows_by_emit (P : Event -> Prop) (ev : Event) (w : World) :
  P ev -> grows_by P w (emit ev w).
Proof. intros H. exists [ev]. split; [reflexivity | now constructor]. Qed.

Lemma after_cleanup_grows (e : JsError) (w : World) :
  grows_by not_a_request w (after_cleanup e w).
Proof.
  eexists. split; [apply after_cleanup_trace |].
  repeat constructor; intros req; discriminate.
Qed.

Lemma getCachedModels_grows (w : World) :
  grows_by not_a_request w (snd (getCachedModels w)).
Proof.
  assert (Hstat : grows_by not_a_request w (emit EvStat w))
    by (apply grows_by_emit; intros req; discriminate).
  assert (Hread : grows_by not_a_request w (emit EvReadFile (emit EvStat w))).
  { apply grows_by_trans with (w2 := emit EvStat w); [exact Hstat |].
    apply grows_by_emit. intros req. discriminate. }
  destruct (cache_file (disk w)) as [f|c] eqn:Hf.
  - destruct (Z.ltb_spec (clock w - mtimeMs f) CACHE_TTL) as [Hage|Hage].
    + destruct (contents f) as [text|c] eqn:Hc.
      * destruct (parsed text) as [models|] eqn:Hp.
        -- now rewrite (getCachedModels_fresh_parsed w Hf Hage Hc Hp).
        -- rewrite (getCachedModels_fresh_unparsed w Hf Hage Hc Hp). cbn [snd].
           eapply grows_by_trans; [exact Hread | apply after_cleanup_grows].
      * rewrite (getCachedModels_fresh_unreadable w Hf Hage Hc). cbn [snd].
        destruct (String.eqb c "ENOENT"); [exact Hread |].
        eapply grows_by_trans; [exact Hread | apply after_cleanup_grows].
    + now rewrite (getCachedModels_stale w Hf Hage).
  - rewrite (getCachedModels_stat_fails w Hf). cbn [snd].
    destruct (String.eqb c "ENOENT"); [exact Hstat |].
    eapply grows_by_trans; [exact Hstat | apply after_cleanup_grows].
Qed.

Lemma setCachedModels_grows (models : list OpenRouterModel) (w : World) :
  grows_by not_a_request w (snd (setCachedModels models w)).
Proof.
  run. destruct (write_fault (disk w)); js_cbn.
  - exists [EvWriteFile (Serialized models);
            EvLog "Cache write error:" (SystemError s)].
    split; [cbn; now rewrite <- app_assoc |].
    repeat constructor; intros req; discriminate.
  - apply grows_by_emit. intros req. discriminate.
Qed.

Lemma grows_by_weaken (P Q : Event -> Prop) (w w' : World) :
  (forall ev, P ev -> Q ev) -> grows_by P w w' -> grows_by Q w w'.
Proof.
  intros HPQ (added & Ht & HF). exists added. split; [exact Ht |].
  eapply Forall_impl; [exact HPQ | exact HF].
Qed.

Lemma fetch_catalogue_grows (w : World) :
  grows_by catalogue_only w
    (snd (fetchWithRetry MODELS_URL no_options default_retries w)).
Proof.
  destruct (fetchWithRetry_world MODELS_URL no_options default_retries w)
    as (_ & rest & Ht & Hreq).
  eexists. split; [exact Ht |].
  constructor.
  - intros req H. injection H as <-. reflexivity.
  - eapply Forall_impl; [| exact Hreq].
    intros ev [-> | (ms & ->)] req H; [injection H as <-; reflexivity | discriminate].
Qed.

Lemma refresh_grows (w : World) : grows_by catalogue_only w (snd (refresh w)).
Proof.
  unfold refresh, bind.
  pose proof (fetch_catalogue_grows w) as Hfetch.
  destruct (fetchWithRetry MODELS_URL no_options default_retries w)
    as [[response|e] w1]; cbn [snd] in *; [| exact Hfetch].
  destruct (negb (ok response)); [exact Hfetch |].
  unfold response_json. destruct (body response) as [json|]; [| exact Hfetch].
  cbn [ret]. cbv zeta.
  pose proof (setCachedModels_grows
                (match data json with Some d => d | None => [] end) w1) as Hset.
  destruct (setCachedModels _ w1) as [[[]|e] w2]; cbn [snd ret] in *;
    (eapply grows_by_trans; [exact Hfetch |]);
    (eapply grows_by_weaken; [| exact Hset]);
    intros ev Hev req ->; now destruct (Hev req).
Qed.

(** X13.  Listing never sends the API key.  Whatever the arguments, the cache
    state and the network, every request a [list_models] call makes is the
    same plain request to the catalogue URL, carrying the two fixed headers
    only: no method override, no body and no "Authorization" header. *)
Theorem list_models_sends_no_key (key : string) (args : option Arguments)
    (w : World) :
  exists added,
    trace (snd (handler key (list_call args) w)) = (trace w ++ added)%list
    /\ forall req, In (EvFetch req) added ->
         req = catalogue_request
         /\ header_value "Authorization" (headers (init req)) = None.
Proof.
  assert (Hgrow : grows_by catalogue_only w (snd (load_models args w))).
  { unfold load_models, bind.
    destruct (truthy (arg args forceRefresh)).
    - cbn [ret]. apply refresh_grows.
    - pose proof (getCachedModels_grows w) as Hread.
      assert (Hread' : grows_by catalogue_only w (snd (getCachedModels w))).
      { eapply grows_by_weaken; [| exact Hread].
        intros ev Hev req ->. now destruct (Hev req). }
      destruct (getCachedModels w) as [[[models|]|e] w0]; cbn [snd] in *;
        try exact Hread'.
      eapply grows_by_trans; [exact Hread' | apply refresh_grows]. }
  rewrite handler_list_models_run.
  destruct (load_models args w) as [[models|e] w']; cbn [snd] in *;
    destruct Hgrow as (added & Ht & HF); exists added; (split; [exact Ht |]);
    intros req Hin; rewrite Forall_forall in HF;
    rewrite (HF _ Hin req eq_refl); split; reflexivity.
Qed.

(** ** Completion errors *)

(** X14.  A completion answer that is not 2xx.  For a validated [prompt]
    call whose request ends with a response outside 200..299, the result is
    the error "OpenRouter API Error: " followed by the message of the body's
    [error] object when the body parses and that message is present and not
    empty, and by "HTTP error <status>" in every other case: a body that is
    not JSON, no [error] object, or a missing or empty message. *)
Theorem prompt_upstream_error (key : string) (a : Arguments) (w w' : World)
    (r : Response) :
  ~ rejected (modelId a) 255 ->
  ~ rejected (prompt a) 15000 ->
  fetchWithRetry COMPLETIONS_URL (completion_options key a) default_retries w
    = (Normal r, w') ->
  ok r = false ->
  (forall json e m,
      body r = Some json -> error json = Some e -> message e = Some m ->
      m <> "" ->
      handler key (prompt_call a) w
      = ({| isError := true;
            result_content :=
              [{| type := "text";
                  text := "Error: OpenRouter API Error: " ++ m |}] |}, w'))
  /\ (body r = None
      \/ (exists json, body r = Some json
                       /\ (error json = None
                           \/ exists e, error json = Some e
                                        /\ (message e = None
                                            \/ message e = Some ""))) ->
      handler key (prompt_call a) w
      = ({| isError := true;
            result_content :=
              [{| type := "text";
                  text := "Error: OpenRouter API Error: HTTP error "
                          ++ show (status r) |}] |}, w')).
Proof.
  intros Hm Hp Hfetch Hok.
  assert (Hrun : handler key (prompt_call a) w
                 = (error_result
                      (Error ("OpenRouter API Error: "
                              ++ match body r with
                                 | Some json =>
                                     or_default (error_message json)
                                       ("HTTP error " ++ show (status r))
                                 | None => "HTTP error " ++ show (status r)
                                 end)), w')).
  { rewrite handler_prompt. unfold catch_to_result, send_prompt, bind.
    rewrite validateInput_unfold.
    destruct (fails_check (modelId a) 255) eqn:Hcm;
      [apply fails_check_iff in Hcm; contradiction |].
    destruct (fails_check (prompt a) 15000) eqn:Hcp;
      [apply fails_check_iff in Hcp; contradiction |].
    cbn [ret]. rewrite Hfetch, Hok. cbn [negb]. cbv zeta.
    unfold try_catch, response_json, bind.
    destruct (body r); reflexivity. }
  split.
  - intros json e m Hb He Hmsg Hne. rewrite Hrun, Hb.
    unfold error_message, or_default. rewrite He, Hmsg.
    apply String.eqb_neq in Hne. now rewrite Hne.
  - intros H. rewrite Hrun.
    destruct H as [-> | (json & -> & H)]; [reflexivity |].
    unfold error_message, or_default.
    destruct H as [-> | (e & -> & [-> | ->])]; reflexivity.
Qed.

Lemma prompt_upstream_error_witness :
  fst (handler "key" (prompt_call hello)
         (world_of empty_disk 0
            (always (reply 404 "Not Found" None (Some upstream_failure)))))
  = {| isError := true;
       result_content :=
         [{| type := "text";
             text := "Error: OpenRouter API Error: No endpoints found for this model" |}] |}
  /\ fst (handler "key" (prompt_call hello)
            (world_of empty_disk 0 (always (reply 400 "Bad Request" None None))))
     = {| isError := true;
          result_content :=
            [{| type := "text";
                text := "Error: OpenRouter API Error: HTTP error 400" |}] |}.
Proof.
  destruct hello_valid as [Hm Hp]. split.
  - destruct (prompt_upstream_error "key" hello
                (world_of empty_disk 0
                   (always (reply 404 "Not Found" None (Some upstream_failure))))
                (requested COMPLETIONS_URL (completion_options "key" hello)
                   (world_of empty_disk 0
                      (always (reply 404 "Not Found" None (Some upstream_failure)))))
                (reply 404 "Not Found" None (Some upstream_failure))
                Hm Hp eq_refl eq_refl) as (H & _).
    rewrite (H upstream_failure _ "No endpoints found for this model"
               eq_refl eq_refl eq_refl); [reflexivity | discriminate].
  - destruct (prompt_upstream_error "key" hello
                (world_of empty_disk 0 (always (reply 400 "Bad Request" None None)))
                (requested COMPLETIONS_URL (completion_options "key" hello)
                   (world_of empty_disk 0
                      (always (reply 400 "Bad Request" None None))))
                (reply 400 "Bad Request" None None)
                Hm Hp eq_refl eq_refl) as (_ & H).
    rewrite H; [reflexivity | now left].
Defined.

(** ** Advertised tools and the dispatcher *)

Lemma getCachedModels_first_event (w : World) :
  exists rest, trace (snd (getCachedModels w)) = (trace w ++ EvStat :: rest)%list.
Proof.
  destruct (cache_file (disk w)) as [f|c] eqn:Hf.
  - destruct (Z.ltb_spec (clock w - mtimeMs f) CACHE_TTL) as [Hage|Hage].
    + destruct (contents f) as [text|c] eqn:Hc.
      * destruct (parsed text) as [models|] eqn:Hp.
        -- rewrite (getCachedModels_fresh_parsed w Hf Hage Hc Hp).
           exists [EvReadFile]. cbn. now rewrite <- app_assoc.
        -- rewrite (getCachedModels_fresh_unparsed w Hf Hage Hc Hp). cbn [snd].
           eexists. rewrite after_cleanup_trace. cbn.
           rewrite <- !app_assoc. reflexivity.
      * rewrite (getCachedModels_fresh_unreadable w Hf Hage Hc). cbn [snd].
        destruct (String.eqb c "ENOENT").
        -- exists [EvReadFile]. cbn. now rewrite <- app_assoc.
        -- eexists. rewrite after_cleanup_trace. cbn.
           rewrite <- !app_assoc. reflexivity.
    + rewrite (getCachedModels_stale w Hf Hage). now exists [].
  - rewrite (getCachedModels_stat_fails w Hf). cbn [snd].
    destruct (String.eqb c "ENOENT").
    + now exists [].
    + eexists. rewrite after_cleanup_trace. cbn.
      rewrite <- !app_assoc. reflexivity.
Qed.

Lemma grows_by_length (P : Event -> Prop) (w w' : World) :
  grows_by P w w' -> (length (trace w) <= length (trace w'))%nat.
Proof. intros (added & -> & _). rewrite length_app. lia. Qed.

Lemma load_models_leaves_a_trace (args : option Arguments) (w : World) :
  (length (trace w) < length (trace (snd (load_models args w))))%nat.
Proof.
  assert (Hrefresh : forall w0,
            (length (trace w0) < length (trace (snd (refresh w0))))%nat).
  { intros w0. unfold refresh, bind.
    destruct (fetchWithRetry_world MODELS_URL no_options default_retries w0)
      as (_ & rest & Ht & _).
    destruct (fetchWithRetry MODELS_URL no_options default_retries w0)
      as [[response|e] w1]; cbn [snd] in *;
      assert (Hlt : (length (trace w0) < length (trace w1))%nat)
        by (rewrite Ht, length_app; cbn; lia);
      [| exact Hlt].
    destruct (negb (ok response)); [exact Hlt |].
    unfold response_json. destruct (body response) as [json|]; [| exact Hlt].
    cbn [ret]. cbv zeta.
    pose proof (grows_by_length _ _ _
                  (setCachedModels_grows
                     (match data json with Some d => d | None => [] end) w1)) as Hset.
    destruct (setCachedModels _ w1) as [[[]|e] w2]; cbn [snd ret] in *; lia. }
  unfold load_models, bind.
  destruct (truthy (arg args forceRefresh)); [apply Hrefresh |].
  destruct (getCachedModels_first_event w) as (rest & Ht).
  destruct (getCachedModels w) as [[[models|]|e] w0]; cbn [snd] in *;
    assert (Hlt : (length (trace w) < length (trace w0))%nat)
      by (rewrite Ht, length_app; cbn; lia);
    try exact Hlt.
  specialize (Hrefresh w0). unfold refresh, bind in Hrefresh. lia.
Qed.

Lemma handler_prompt_checks (key : string) (a : Arguments) (w : World) :
  handler key (prompt_call a) w =
  if fails_check (modelId a) 255
  then (error_result (Error "Invalid or missing modelId"), w)
  else if fails_check (prompt a) 15000
  then (error_result
          (Error "Prompt must be a string between 1 and 15000 characters"), w)
  else catch_to_result (send_prompt key (Some a)) w.
Proof.
  rewrite handler_prompt.
  unfold catch_to_result, send_prompt, bind. rewrite validateInput_unfold.
  destruct (fails_check (modelId a) 255); [reflexivity |].
  destruct (fails_check (prompt a) 15000); reflexivity.
Qed.

(** X15.  The tools advertised by the listing handler are exactly the tools
    the call handler implements: a call is refused with "Unknown tool:
    <name>", the world untouched, if and only if its name is not among the
    advertised ones. *)
Theorem advertised_tools_are_dispatched (key : string)
    (request : CallToolRequest) (w : World) :
  map tool_name tools = ["list_models"; "prompt"]
  /\ (~ In (tool request) (map tool_name tools) <->
      dispatch key request w
      = (Throw (Error ("Unknown tool: " ++ tool request)), w)).
Proof.
  split; [reflexivity |]. split.
  - intros Hnot. apply dispatch_unknown; intros Heq; apply Hnot; rewrite Heq;
      cbn; auto.
  - intros Hrun Hin. destruct request as [name args]. cbn [tool] in *.
    cbn in Hin. destruct Hin as [<- | [<- | []]].
    + change (dispatch key {| tool := "list_models"; arguments := args |} w)
        with (list_models args w) in Hrun.
      unfold list_models, bind in Hrun.
      pose proof (load_models_leaves_a_trace args w) as Hlt.
      destruct (load_models args w) as [[models|e] w1];
        cbn [snd ret] in *; [discriminate Hrun |].
      injection Hrun as _ Hw. subst w1. lia.
    + change (dispatch key {| tool := "prompt"; arguments := args |} w)
        with (send_prompt key args w) in Hrun.
      destruct args as [a|]; [| discriminate Hrun].
      assert (Hsame : snd (send_prompt key (Some a) w) = w) by now rewrite Hrun.
      unfold send_prompt, bind in Hrun. rewrite validateInput_unfold in Hrun.
      destruct (fails_check (modelId a) 255) eqn:Hcm; [discriminate Hrun |].
      destruct (fails_check (prompt a) 15000) eqn:Hcp; [discriminate Hrun |].
      destruct (fetchWithRetry_world COMPLETIONS_URL (completion_options key a)
                  default_retries w) as (_ & rest & Ht & _).
      rewrite <- (send_prompt_world key a w), Hsame in Ht.
      * apply (f_equal (@length Event)) in Ht. rewrite length_app in Ht.
        cbn in Ht. lia.
      * intros Hr. apply fails_check_iff in Hr. congruence.
      * intros Hr. apply fails_check_iff in Hr. congruence.
Qed.

(** X16.  The schema of [prompt] and its run-time check agree on what is
    required.  For each property the advertised schema lists as required,
    its declared type is "string", and a call in which that property is
    missing, or holds a value of another type, is refused with an error
    result before any request is made. *)
Theorem required_properties_enforced (key : string) (a : Arguments) (w : World)
    (t : ToolDefinition) (k : string) :
  In t tools ->
  tool_name t = "prompt" ->
  In k (tool_required t) ->
  (exists schema, In (k, schema) (tool_properties t)
                  /\ property_type schema = "string")
  /\ (typeof (property a k) <> "string" ->
      isError (fst (handler key (prompt_call a) w)) = true
      /\ snd (handler key (prompt_call a) w) = w).
Proof.
  intros Ht Hname Hk.
  destruct Ht as [<- | [<- | []]]; [discriminate Hname |].
  cbn in Hk. destruct Hk as [<- | [<- | []]].
  - split; [eexists; split; [left; reflexivity | reflexivity] |].
    intros Htype. cbn in Htype. rewrite handler_prompt_checks.
    assert (Hc : fails_check (modelId a) 255 = true).
    { unfold fails_check. destruct (modelId a); try reflexivity;
        try (cbn; now rewrite orb_true_r); now contradiction Htype. }
    rewrite Hc. split; reflexivity.
  - split; [eexists; split; [right; left; reflexivity | reflexivity] |].
    intros Htype. cbn in Htype. rewrite handler_prompt_checks.
    assert (Hc : fails_check (prompt a) 15000 = true).
    { unfold fails_check. destruct (prompt a); try reflexivity;
        try (cbn; now rewrite orb_true_r); now contradiction Htype. }
    rewrite Hc. destruct (fails_check (modelId a) 255); split; reflexivity.
Qed.

Lemma required_properties_enforced_witness :
  isError (fst (handler "key"
                  (prompt_call (prompt_arguments (JStr "openai/gpt-4o") (JNum 42)))
                  rate_limited_world)) = true
  /\ snd (handler "key"
            (prompt_call (prompt_arguments (JStr "openai/gpt-4o") (JNum 42)))
            rate_limited_world) = rate_limited_world.
Proof.
  destruct (required_properties_enforced "key"
              (prompt_arguments (JStr "openai/gpt-4o") (JNum 42))
              rate_limited_world
              {| tool_name := "prompt";
                 tool_description := "Send a prompt to an OpenRouter model";
                 tool_properties :=
                   [ ("modelId",
                      {| property_type := "string";
                         property_description :=
                           "The ID of the model (e.g., 'google/gemini-2.0-flash-exp:free')" |});
                     ("prompt", {| property_type := "string";
                                   property_description :=
                                     "The prompt message to send" |}) ];
                 tool_required := ["modelId"; "prompt"] |}
              "prompt") as (_ & H).
  - right. left. reflexivity.
  - reflexivity.
  - right. left. reflexivity.
  - apply H. discriminate.
Defined.

(** ** Filters, once more *)

Lemma keeps_split (args : option Arguments) (m : OpenRouterModel) :
  keeps args m = keeps (only_free args) m && keeps (only_query args) m.
Proof.
  unfold keeps, only_free, only_query. cbn [arg free query truthy].
  destruct (truthy (arg args free)), (truthy (arg args query));
    rewrite ?andb_true_r, ?andb_true_l; reflexivity.
Qed.

(** X17.  The two filters are independent.  Filtering by both is filtering
    by one and then by the other, in either order; filtering again with the
    same arguments changes nothing; each entry is judged on its own, so the
    filter distributes over concatenation; and nothing is ever added: the
    result is never longer than the input, and every entry rendered under a
    truthy [free] carries the "Free" tier. *)
Theorem filters_compose (args : option Arguments)
    (models more : list OpenRouterModel) :
  apply_filters args models
    = apply_filters (only_query args) (apply_filters (only_free args) models)
  /\ apply_filters args models
     = apply_filters (only_free args) (apply_filters (only_query args) models)
  /\ apply_filters args (apply_filters args models) = apply_filters args models
  /\ apply_filters args (models ++ more)
     = (apply_filters args models ++ apply_filters args more)%list
  /\ (length (apply_filters args models) <= length models)%nat
  /\ (truthy (arg args free) = true ->
      forall m, In m (apply_filters args models) -> tier m = "Free").
Proof.
  rewrite !apply_filters_keeps. repeat split.
  - rewrite filter_twice. apply filter_ext. intros m. apply keeps_split.
  - rewrite filter_twice. apply filter_ext. intros m.
    rewrite keeps_split. apply andb_comm.
  - rewrite filter_twice. apply filter_ext. intros m. now destruct (keeps args m).
  - apply filter_app.
  - apply filter_length_le.
  - intros Hfree m Hin. apply filter_In in Hin. destruct Hin as [_ Hk].
    unfold keeps in Hk. rewrite Hfree in Hk. apply andb_true_iff in Hk.
    destruct Hk as [Hk _]. unfold tier. now rewrite Hk.
Qed.

Lemma filters_compose_witness :
  truthy (JStr "yes") = true
  /\ tier {| id := "mistralai/mistral-7b:free"; name := "Mistral 7B" |} = "Free".
Proof.
  split; [reflexivity |].
  destruct (filters_compose
              (Some (listing_arguments (JStr "yes") JUndefined JUndefined))
              sample_models []) as (_ & _ & _ & _ & _ & H).
  apply H; [reflexivity |]. cbn. auto.
Defined.

(** ** The shape of the table *)

Lemma count_newlines_join (rows : list string) :
  (forall r, In r rows -> count_newlines r = 0%nat) ->
  count_newlines (join newline rows) = (length rows - 1)%nat.
Proof.
  unfold join. induction rows as [|r rest IH]; intros Hrows; [reflexivity |].
  destruct rest as [|r' rest'].
  - cbn. apply Hrows. now left.
  - change (String.concat newline (r :: r' :: rest'))
      with (r ++ newline ++ String.concat newline (r' :: rest')).
    rewrite !count_newlines_app, (Hrows r (or_introl eq_refl)).
    rewrite IH by (intros x Hx; apply Hrows; now right).
    cbn. lia.
Qed.

(** X18.  One line per model.  When at least one entry survives and no id
    or name of a surviving entry contains a line feed, the text of the
    listing has exactly two header lines followed by one line per entry,
    that is [length kept + 1] line feeds in all. *)
Theorem table_line_count (kept : list OpenRouterModel) :
  kept <> [] ->
  (forall m, In m kept ->
     count_newlines (id m) = 0%nat /\ count_newlines (name m) = 0%nat) ->
  count_newlines (render kept) = S (length kept).
Proof.
  intros Hne Hclean. destruct kept as [|m rest]; [contradiction |].
  rewrite render_nonempty, !count_newlines_app, count_newlines_join.
  - rewrite length_map. cbn. lia.
  - intros r Hr. apply in_map_iff in Hr. destruct Hr as (m' & <- & Hin).
    destruct (Hclean m' Hin) as (Hid & Hname).
    unfold row, tier. rewrite !count_newlines_app, Hid, Hname.
    destruct (endsWith (id m') ":free"); reflexivity.
Qed.

Lemma table_line_count_witness :
  count_newlines (render sample_models) = 4%nat.
Proof.
  apply (table_line_count sample_models); [discriminate |].
  intros m Hin. cbn in Hin.
  destruct Hin as [<- | [<- | [<- | []]]]; split; reflexivity.
Defined.

(** ** The earlier revision: rendering and fetching *)







Lemma sync_read_world (w : World) :
  sent (snd (SyncCache.getCachedModels w)) = sent w
  /\ network (snd (SyncCache.getCachedModels w)) = network w.
Proof.
  unfold SyncCache.getCachedModels, SyncCache.fs_existsSync. run.
  destruct (cache_file (disk w)) as [f|c] eqn:Hf; js_cbn;
    [| split; reflexivity].
  rewrite Hf. js_cbn.
  destruct (clock w - mtimeMs f <? CACHE_TTL); js_cbn; [| split; reflexivity].
  rewrite Hf. js_cbn.
  destruct (contents f) as [text|c]; js_cbn; [| split; reflexivity].
  destruct (parsed text); js_cbn; split; reflexivity.
Qed.

(** X20.  The single-attempt fetch of the earlier revision.  It always
    sends exactly one request and never pauses.  Any response other than a
    429 is handed back as it is, a 5xx included; a rejection comes out
    unchanged; and a 429 becomes the rate-limit error, whose wait is the
    [Retry-After] value when that header is present and not empty and "10"
    otherwise, so the message never has an empty wait. *)
Theorem single_attempt_fetch (u : string) (options : RequestInit) (w : World) :
  snd (SingleAttempt.fetchWithRetry u options w) = requested u options w
  /\ (forall r, network w (sent w) = Responds r -> status r <> 429 ->
                fst (SingleAttempt.fetchWithRetry u options w) = Normal r)
  /\ (forall e, network w (sent w) = Rejects e ->
                fst (SingleAttempt.fetchWithRetry u options w) = Throw e)
  /\ (forall r, network w (sent w) = Responds r -> status r = 429 ->
        exists wait,
          fst (SingleAttempt.fetchWithRetry u options w)
          = Throw (Error ("Rate limited by OpenRouter. Please wait "
                          ++ wait ++ " seconds."))
          /\ wait <> ""
          /\ (forall h, headers_get r "Retry-After" = Some h -> h <> "" ->
                        wait = h)
          /\ (headers_get r "Retry-After" = None
              \/ headers_get r "Retry-After" = Some "" -> wait = "10")).
Proof.
  unfold SingleAttempt.fetchWithRetry. run.
  destruct (network w (sent w)) as [r|e] eqn:Hnet.
  - destruct (Z.eqb_spec (status r) 429) as [Hs|Hs].
    + split; [reflexivity |]. split; [| split].
      * intros r' H. injection H as <-. contradiction.
      * intros e H. discriminate H.
      * intros r' H _. injection H as <-.
        exists (retry_after r). split; [reflexivity |].
        unfold retry_after, or_default.
        destruct (headers_get r "Retry-After") as [h|].
        -- destruct (String.eqb_spec h "") as [-> | Hne].
           ++ split; [discriminate |]. split; [| reflexivity].
              intros h H Hh. now injection H as <-.
           ++ split; [exact Hne |]. split.
              ** intros h' H _. now injection H as <-.
              ** intros [H | H]; [discriminate H | now injection H as ->].
        -- split; [discriminate |]. split; [| reflexivity].
           intros h H. discriminate H.
    + split; [reflexivity |]. split; [| split].
      * intros r' H _. now injection H as <-.
      * intros e H. discriminate H.
      * intros r' H Hs'. injection H as <-. contradiction.
  - split; [reflexivity |]. split; [| split].
    + intros r H. discriminate H.
    + intros e' H. now injection H as <-.
    + intros r H. discriminate H.
Qed.

Lemma single_attempt_fetch_witness :
  fst (SingleAttempt.fetchWithRetry MODELS_URL no_options
         (world_of empty_disk 0
            (always (reply 503 "Service Unavailable" None None))))
  = Normal (reply 503 "Service Unavailable" None None).
Proof.
  destruct (single_attempt_fetch MODELS_URL no_options
              (world_of empty_disk 0
                 (always (reply 503 "Service Unavailable" None None))))
    as (_ & H & _).
  apply H; [reflexivity | discriminate].
Defined.

(** X21.  The earlier revision does not retry.  On a cache miss, a first
    catalogue response outside 200..299 (a 5xx included, 429 apart) ends the
    listing at once with the error "OpenRouter API error: <status> <reason
    phrase>", after exactly one request. *)
Theorem sync_listing_does_not_retry (args : option Arguments) (w : World)
    (r : Response) :
  fst (SyncCache.getCachedModels w) = Normal None ->
  network w (sent w) = Responds r ->
  status r <> 429 ->
  ok r = false ->
  catch_to_result (SyncCache.list_models args) w
  = ({| isError := true;
        result_content :=
          [{| type := "text";
              text := "Error: OpenRouter API error: " ++ show (status r)
                      ++ " " ++ statusText r |}] |},
     requested MODELS_URL no_options (snd (SyncCache.getCachedModels w))).
Proof.
  intros Hmiss Hnet Hs Hok.
  destruct (sync_read_world w) as (Hsent & Hnetw).
  unfold catch_to_result, SyncCache.list_models, SyncCache.load_models, bind.
  destruct (SyncCache.getCachedModels w) as [c w0]. cbn [fst snd] in *. subst c.
  unfold SingleAttempt.fetchWithRetry, bind, fetch.
  rewrite Hnetw, Hsent, Hnet.
  destruct (Z.eqb_spec (status r) 429) as [H|_]; [contradiction |].
  cbn [ret]. rewrite Hok. reflexivity.
Qed.

Lemma sync_listing_does_not_retry_witness :
  fst (catch_to_result (SyncCache.list_models None)
         (world_of empty_disk 0
            (always (reply 503 "Service Unavailable" None None))))
  = {| isError := true;
       result_content :=
         [{| type := "text";
             text := "Error: OpenRouter API error: 503 Service Unavailable" |}] |}.
Proof.
  rewrite (sync_listing_does_not_retry None
             (world_of empty_disk 0
                (always (reply 503 "Service Unavailable" None None)))
             (reply 503 "Service Unavailable" None None));
    [reflexivity | reflexivity | reflexivity | discriminate | reflexivity].
Defined.

(** ** The cost of one call *)

Lemma after_cleanup_clock (e : JsError) (w : World) :
  clock (after_cleanup e w) = clock w.
Proof.
  unfold after_cleanup. run.
  destruct (unlink_fault (disk w)); js_cbn; [reflexivity |].
  destruct (cache_file (disk w)); reflexivity.
Qed.

Lemma getCachedModels_clock (w : World) :
  clock (snd (getCachedModels w)) = clock w.
Proof.
  destruct (cache_file (disk w)) as [f|c] eqn:Hf.
  - destruct (Z.ltb_spec (clock w - mtimeMs f) CACHE_TTL) as [Hage|Hage].
    + destruct (contents f) as [text|c] eqn:Hc.
      * destruct (parsed text) as [models|] eqn:Hp.
        -- now rewrite (getCachedModels_fresh_parsed w Hf Hage Hc Hp).
        -- rewrite (getCachedModels_fresh_unparsed w Hf Hage Hc Hp).
           cbn [snd]. now rewrite after_cleanup_clock.
      * rewrite (getCachedModels_fresh_unreadable w Hf Hage Hc). cbn [snd].
        destruct (String.eqb c "ENOENT"); [reflexivity |].
        now rewrite after_cleanup_clock.
    + now rewrite (getCachedModels_stale w Hf Hage).
  - rewrite (getCachedModels_stat_fails w Hf). cbn [snd].
    destruct (String.eqb c "ENOENT"); [reflexivity |].
    now rewrite after_cleanup_clock.
Qed.

Lemma setCachedModels_clock (models : list OpenRouterModel) (w : World) :
  clock (snd (setCachedModels models w)) = clock w.
Proof. run. destruct (write_fault (disk w)); reflexivity. Qed.

Lemma fetch_within_budget (u : string) (options : RequestInit) (w : World) :
  within_budget w (snd (fetchWithRetry u options default_retries w)).
Proof.
  split.
  - pose proof (fetchWithRetry_sent u options default_retries w) as H.
    unfold default_retries in *. lia.
  - unfold fetchWithRetry, default_retries.
    pose proof (fetch_loop_clock u options 2 3 0 w eq_refl ltac:(lia)) as H.
    cbn zeta in H. cbn in H. cbn. lia.
Qed.

Lemma refresh_within_budget (w : World) : within_budget w (snd (refresh w)).
Proof.
  unfold refresh, bind.
  pose proof (fetch_within_budget MODELS_URL no_options w) as Hfetch.
  destruct (fetchWithRetry MODELS_URL no_options default_retries w)
    as [[response|e] w1]; cbn [snd] in *; [| exact Hfetch].
  destruct (negb (ok response)); [exact Hfetch |].
  unfold response_json. destruct (body response) as [json|]; [| exact Hfetch].
  cbn [ret]. cbv zeta.
  pose proof (setCachedModels_normal
                (match data json with Some d => d | None => [] end) w1)
    as [_ Hsent].
  pose proof (setCachedModels_clock
                (match data json with Some d => d | None => [] end) w1) as Hclock.
  destruct (setCachedModels _ w1) as [[[]|e] w2]; cbn [snd ret] in *;
    unfold within_budget in *; lia.
Qed.

(** X22.  The cost of one tool call is bounded, whatever the request, the
    cache and the network: it sends at most three requests and sleeps at
    most 3000 ms in back-off pauses. *)
Theorem call_within_budget (key : string) (request : CallToolRequest)
    (w : World) :
  (sent w <= sent (snd (handler key request w)) <= sent w + 3)%nat
  /\ clock w <= clock (snd (handler key request w)) <= clock w + 3000.
Proof.
  fold (within_budget w (snd (handler key request w))).
  assert (Hsame : within_budget w w) by (unfold within_budget; lia).
  assert (Hcatch : forall body,
            snd (catch_to_result body w) = snd (body w)).
  { intros body. unfold catch_to_result.
    destruct (body w) as [[r|e] w']; reflexivity. }
  unfold handler. rewrite Hcatch. unfold dispatch.
  destruct (String.eqb (tool request) "list_models").
  - unfold list_models, bind.
    assert (Hload : within_budget w (snd (load_models (arguments request) w))).
    { unfold load_models, bind.
      destruct (truthy (arg (arguments request) forceRefresh)).
      - cbn [ret]. apply refresh_within_budget.
      - pose proof (getCachedModels_sent w) as Hs.
        pose proof (getCachedModels_clock w) as Hc.
        destruct (getCachedModels w) as [[[models|]|e] w0]; cbn [snd ret] in *;
          try (unfold within_budget; lia).
        pose proof (refresh_within_budget w0) as Hr.
        unfold refresh, bind, within_budget in *. lia. }
    destruct (load_models (arguments request) w) as [[models|e] w'];
      exact Hload.
  - destruct (String.eqb (tool request) "prompt"); [| exact Hsame].
    destruct (arguments request) as [a|]; [| exact Hsame].
    unfold send_prompt, bind. rewrite validateInput_unfold.
    destruct (fails_check (modelId a) 255) eqn:Hcm; [exact Hsame |].
    destruct (fails_check (prompt a) 15000) eqn:Hcp; [exact Hsame |].
    cbn [ret].
    pose proof (fetch_within_budget COMPLETIONS_URL (completion_options key a) w)
      as Hfetch.
    destruct (fetchWithRetry _ _ _ w) as [[response|e] w1]; cbn [snd] in *;
      [| exact Hfetch].
    destruct (negb (ok response)).
    + unfold try_catch, response_json, bind.
      destruct (body response); exact Hfetch.
    + unfold response_json. destruct (body response) as [json|];
        [| exact Hfetch].
      cbn [ret]. destruct (negb (present (first_content json))); exact Hfetch.
Qed.

(** ** Instances *)

Lemma fetchWithRetry_outcome_witness :
  status (reply 200 "OK" None None) <> 429
  /\ network (world_of empty_disk 0 flaky) 1 = Responds (reply 200 "OK" None None).
Proof.
  pose proof (fetchWithRetry_outcome MODELS_URL no_options 2
                (world_of empty_disk 0 flaky)) as H.
  cbn in H. destruct H as (Hlast & Hne & _). split; [exact Hne | exact Hlast].
Defined.

Lemma list_models_sends_no_key_witness :
  exists added,
    trace (snd (handler "key" (list_call None) catalogue_world)) = added
    /\ forall req, In (EvFetch req) added ->
         header_value "Authorization" (headers (init req)) = None.
Proof.
  destruct (list_models_sends_no_key "key" None catalogue_world)
    as (added & Ht & H).
  exists added. split; [exact Ht |].
  intros req Hin. now destruct (H req Hin).
Defined.

Lemma advertised_tools_are_dispatched_witness :
  dispatch "key" {| tool := "summarize"; arguments := None |} rate_limited_world
  = (Throw (Error "Unknown tool: summarize"), rate_limited_world).
Proof.
  destruct (advertised_tools_are_dispatched "key"
              {| tool := "summarize"; arguments := None |} rate_limited_world)
    as (_ & H & _).
  apply H. cbn. intros [H1 | [H1 | []]]; discriminate H1.
Defined.

